(** * gooeypie/widgets.py: the event-listener mixin and the property facade

    A shallow embedding of [GooeyPieWidget] (event registration, removal and
    dispatch), of the widget constructors as far as they set up the mixin,
    and of the validated property accessors of [StyleLabel], [Dropdown],
    [Listbox] and [Input].

    Python objects are mutated in place; here every method is a computation
    in the monad [Py], which threads the widget and may raise.  The host
    toolkit (tkinter) is represented by the part of its state the mixin
    talks to: the sequence bindings, the [command] option, the write traces
    of the linked variable and the commands of a radio group's buttons. *)

From stdpp Require Import gmap strings list fin_maps.
From Stdlib Require Import ZArith Ascii.

Open Scope Z_scope.
Open Scope string_scope.

(** ** Python values, exceptions and outcomes *)

(** The exception classes raised in widgets.py or by the toolkit calls it
    makes.  Message texts are not modelled. *)
Inductive PyException :=
| GooeyPieError
| ValueError
| AttributeError
| TypeError
| KeyError
| IndexError
| RecursionError
| TclError.

#[global] Instance PyException_eq_dec : EqDecision PyException.
Proof. solve_decision. Defined.

Inductive Outcome (A : Type) :=
| Returned (a : A)
| Raised (e : PyException).
Arguments Returned {A} a.
Arguments Raised {A} e.

(** Contents of a tk variable ([IntVar], [StringVar]) and of font
    dictionaries.  A [DoubleVar] (a slider built with float bounds) is
    outside the model. *)
Inductive PyValue :=
| PyInt (z : Z)
| PyStr (s : string).

#[global] Instance PyValue_eq_dec : EqDecision PyValue.
Proof. solve_decision. Defined.

(** [t.index(value)] on a tuple or list of strings *)
Fixpoint index (t : list string) (value : string) : Outcome nat :=
  match t with
  | [] => Raised ValueError
  | item :: rest =>
      if decide (item = value) then Returned O
      else match index rest value with
           | Returned i => Returned (S i)
           | Raised e => Raised e
           end
  end.

(** ** Callbacks, toolkit events and GooeyPie events *)

(** A function object ([def] or [lambda]) all of whose parameters are
    required positional ones, by the two attributes [add_event_listener]
    reads: [callback.__name__] and [callback.__code__.co_argcount].  For
    such a function [co_argcount] is the number of arguments a call has to
    pass.  Its body is opaque: a call that binds is recorded in the
    widget's [invoked] log and is taken to return. *)
Record Callback := {
  __name__ : string;
  co_argcount : nat
}.

#[global] Instance Callback_eq_dec : EqDecision Callback.
Proof. solve_decision. Defined.

(** The callables a program can hand to [add_event_listener]:
    - a function as above;
    - a bound method [instance.method]: its [__code__] is that of the
      function [f] it wraps, so [co_argcount] counts [self], which a call
      does not pass;
    - any other callable (a function with defaults, [*args] or
      keyword-only parameters, a [functools.partial], a builtin, an
      instance with [__call__]), described by what
      [callback.__code__.co_argcount] gives, if the object has a
      [__code__] at all, and by whether a call with one positional
      argument binds. *)
Inductive Callable :=
| function (f : Callback)
| bound_method (f : Callback)
| other_callable (name : string) (argcount : option nat) (binds_one : bool).

Coercion function : Callback >-> Callable.

#[global] Instance Callable_eq_dec : EqDecision Callable.
Proof. solve_decision. Defined.

(** [callback.__code__.co_argcount]; [None] when there is no [__code__]. *)
Definition code_argcount (c : Callable) : option nat :=
  match c with
  | function f | bound_method f => Some (co_argcount f)
  | other_callable _ argcount _ => argcount
  end.

(** Whether [c(event)], a call with one positional argument, binds; when
    it does not, Python raises TypeError. *)
Definition accepts_one_argument (c : Callable) : bool :=
  match c with
  | function f => bool_decide (co_argcount f = 1%nat)
  | bound_method f => bool_decide (co_argcount f = 2%nat)
  | other_callable _ _ binds_one => binds_one
  end.

(** The fields of a tk event that [GooeyPieEvent] reads. *)
Module tk.
Record Event := {
  x : Z; y : Z; x_root : Z; y_root : Z;
  char : string; keysym : string; keycode : Z
}.
End tk.

(** What reaches the [tk_event] parameter of [_event]: a tk event from a
    sequence binding, or the value a Scale hands to its command (a
    non-empty string, hence truthy). *)
Inductive Payload :=
| TkEv (e : tk.Event)
| ScaleValue (v : Z).

Record Mouse := { m_x : Z; m_y : Z; m_x_root : Z; m_y_root : Z }.
Record Key := { k_char : string; k_keysym : string; k_keycode : Z }.

(** The [widget] back-reference of the event is the widget threaded by
    [Py] and is not stored again. *)
Record GooeyPieEvent := {
  event_name : string;
  mouse : option Mouse;
  key : option Key
}.

(** [GooeyPieEvent.__init__] *)
Definition GooeyPieEvent_init (name : string) (tk_event : option Payload)
  : Outcome GooeyPieEvent :=
  match tk_event with
  | Some (TkEv e) =>
      Returned {| event_name := name;
                  mouse := Some {| m_x := tk.x e; m_y := tk.y e;
                                   m_x_root := tk.x_root e;
                                   m_y_root := tk.y_root e |};
                  key := if decide (tk.char e = "??") then None
                         else Some {| k_char := tk.char e;
                                      k_keysym := tk.keysym e;
                                      k_keycode := tk.keycode e |} |}
  | Some (ScaleValue _) =>
      (* a str has no attribute [x] *)
      Raised AttributeError
  | None => Returned {| event_name := name; mouse := None; key := None |}
  end.

(** ** Widgets *)

(** The classes of widgets.py whose constructor runs
    [GooeyPieWidget.__init__].  [Table] declares no constructor and only
    two empty methods, so the mixin is never initialised for it; it is not
    part of this development. *)
Inductive WidgetKind :=
| Label | Button | Slider | StyleLabel | Hyperlink | Image | Input | Secret
| Listbox | Textbox | ImageButton | Checkbox | Radiogroup | LabelRadiogroup
| Dropdown | Spinbox.

#[global] Instance WidgetKind_eq_dec : EqDecision WidgetKind.
Proof. solve_decision. Defined.

(** The callables handed to the toolkit. *)
Inductive Handler :=
| partial_event (name : string)                (* partial(self._event, name) *)
| partial_slider_change_event (name : string)  (* partial(self._slider_change_event, name) *)
| partial_text_change_event (name : string)    (* partial(self._text_change_event, name) *)
| hyperlink_cursor                             (* lambda e: self.configure(cursor='hand2') *)
| hyperlink_open_link                          (* self._open_link *)
| textbox_focus_next_widget
| textbox_focus_previous_widget
| textbox_insert_tab.

#[global] Instance Handler_eq_dec : EqDecision Handler.
Proof. solve_decision. Defined.

Record Widget := {
  kind : WidgetKind;
  (* attributes set by widgets.py *)
  _events : gmap string (option Callable);
  _value : option PyValue;           (* contents of the linked tk variable *)
  _previous_value : option PyValue;
  (* toolkit state *)
  bindings : gmap string Handler;    (* bind / unbind *)
  command : option Handler;          (* configure(command=...) *)
  traces : list Handler;             (* write traces, most recent first *)
  radiobuttons : list (option Handler); (* command of each child of a radio group *)
  (* calls of user callbacks so far, oldest first *)
  invoked : list (Callable * GooeyPieEvent)
}.

Definition with_events (f : gmap string (option Callable) → gmap string (option Callable))
  (w : Widget) : Widget :=
  {| kind := kind w; _events := f (_events w); _value := _value w;
     _previous_value := _previous_value w; bindings := bindings w;
     command := command w; traces := traces w; radiobuttons := radiobuttons w;
     invoked := invoked w |}.

Definition with_value (v : option PyValue) (w : Widget) : Widget :=
  {| kind := kind w; _events := _events w; _value := v;
     _previous_value := _previous_value w; bindings := bindings w;
     command := command w; traces := traces w; radiobuttons := radiobuttons w;
     invoked := invoked w |}.

Definition with_previous_value (v : option PyValue) (w : Widget) : Widget :=
  {| kind := kind w; _events := _events w; _value := _value w;
     _previous_value := v; bindings := bindings w;
     command := command w; traces := traces w; radiobuttons := radiobuttons w;
     invoked := invoked w |}.

Definition with_bindings (f : gmap string Handler → gmap string Handler)
  (w : Widget) : Widget :=
  {| kind := kind w; _events := _events w; _value := _value w;
     _previous_value := _previous_value w; bindings := f (bindings w);
     command := command w; traces := traces w; radiobuttons := radiobuttons w;
     invoked := invoked w |}.

Definition with_command (c : option Handler) (w : Widget) : Widget :=
  {| kind := kind w; _events := _events w; _value := _value w;
     _previous_value := _previous_value w; bindings := bindings w;
     command := c; traces := traces w; radiobuttons := radiobuttons w;
     invoked := invoked w |}.

Definition with_traces (t : list Handler) (w : Widget) : Widget :=
  {| kind := kind w; _events := _events w; _value := _value w;
     _previous_value := _previous_value w; bindings := bindings w;
     command := command w; traces := t; radiobuttons := radiobuttons w;
     invoked := invoked w |}.

Definition with_radiobuttons (r : list (option Handler)) (w : Widget) : Widget :=
  {| kind := kind w; _events := _events w; _value := _value w;
     _previous_value := _previous_value w; bindings := bindings w;
     command := command w; traces := traces w; radiobuttons := r;
     invoked := invoked w |}.

Definition with_invoked (l : list (Callable * GooeyPieEvent)) (w : Widget) : Widget :=
  {| kind := kind w; _events := _events w; _value := _value w;
     _previous_value := _previous_value w; bindings := bindings w;
     command := command w; traces := traces w; radiobuttons := radiobuttons w;
     invoked := l |}.

(** ** The monad of methods: state passing with exceptions *)

Definition Py (A : Type) : Type := Widget → Outcome A * Widget.

#[global] Instance Py_ret : MRet Py := λ A a w, (Returned a, w).

#[global] Instance Py_bind : MBind Py := λ A B f m w,
  match m w with
  | (Returned a, w') => f a w'
  | (Raised e, w') => (Raised e, w')
  end.

Definition raise {A} (e : PyException) : Py A := λ w, (Raised e, w).
Definition get : Py Widget := λ w, (Returned w, w).
Definition modify (f : Widget → Widget) : Py unit := λ w, (Returned tt, f w).
Definition lift {A} (o : Outcome A) : Py A := λ w, (o, w).

(** [try: body / except cls: handler]: the handler runs on the state the
    body left behind. *)
Definition try_except {A} (body : Py A) (cls : PyException) (handler : Py A) : Py A :=
  λ w, match body w with
       | (Raised e, w') => if decide (e = cls) then handler w' else (Raised e, w')
       | r => r
       end.

(** [d[k]] on a dict, given the result of the lookup *)
Definition subscript {V} (entry : option V) : Py V :=
  match entry with
  | Some v => mret v
  | None => raise KeyError
  end.

Definition when (b : bool) (m : Py unit) : Py unit := if b then m else mret tt.

(** ** The mixin *)

(** [GooeyPieWidget._tk_event_mappings], in source order. *)
Definition _tk_event_mappings : list (string * string) :=
  [ ("mouse_down", "<Button-1>");
    ("mouse_up", "<ButtonRelease-1>");
    ("double_click", "<Double-Button-1>");
    ("triple_click", "<Triple-Button-1>");
    ("middle_click", "<Button-2>");
    ("right_click", "<Button-3>");
    ("mouse_over", "<Enter>");
    ("mouse_out", "<Leave>");
    ("key_press", "<Key>");
    ("focus", "<FocusIn>");
    ("blur", "<FocusOut>") ].

(** Lookup in the table (its keys are distinct). *)
Fixpoint assoc (name : string) (table : list (string * string)) : option string :=
  match table with
  | [] => None
  | (k, v) :: rest => if decide (name = k) then Some v else assoc name rest
  end.

Definition tk_sequence_of (name : string) : option string :=
  assoc name _tk_event_mappings.

(** [isinstance(self, cls)] for the classes [add_event_listener] tests. *)
Definition is_RadiogroupBase (k : WidgetKind) : bool :=
  match k with Radiogroup | LabelRadiogroup => true | _ => false end.
Definition is_Slider (k : WidgetKind) : bool :=
  match k with Slider => true | _ => false end.
Definition is_Checkbox_or_Spinbox (k : WidgetKind) : bool :=
  match k with Checkbox | Spinbox => true | _ => false end.
Definition is_Input (k : WidgetKind) : bool :=
  match k with Input | Secret => true | _ => false end.
Definition is_Textbox (k : WidgetKind) : bool :=
  match k with Textbox => true | _ => false end.
Definition is_Listbox (k : WidgetKind) : bool :=
  match k with Listbox => true | _ => false end.
Definition is_Dropdown (k : WidgetKind) : bool :=
  match k with Dropdown => true | _ => false end.

(** *** The toolkit calls the mixin makes *)

(** Which toolkit classes have a [command] option: ttk.Button, ttk.Scale,
    ttk.Checkbutton and ttk.Spinbox.  On the others (ttk.Label, ttk.Entry,
    tk.Listbox, ScrolledText, ttk.Frame, ttk.LabelFrame, ttk.Combobox)
    [configure(command=...)] raises TclError. *)
Definition has_command_option (k : WidgetKind) : bool :=
  match k with
  | Button | ImageButton | Slider | Checkbox | Spinbox => true
  | _ => false
  end.

(** [self.bind(sequence, f)] replaces the binding of the sequence. *)
Definition bind (sequence : string) (f : Handler) : Py unit :=
  modify (with_bindings <[sequence := f]>).

(** [self.unbind(sequence)] *)
Definition unbind (sequence : string) : Py unit :=
  modify (with_bindings (delete sequence)).

(** [self.configure(command=f)]; [None] stands for the empty string. *)
Definition configure_command (f : option Handler) : Py unit :=
  w ← get;
  if has_command_option (kind w) then modify (with_command f)
  else raise TclError.

(** [self._value.trace('w', f)] *)
Definition trace (f : Handler) : Py unit :=
  modify (λ w, with_traces (f :: traces w) w).

(** [for radiobutton in self.winfo_children(): radiobutton.configure(command=f)] *)
Definition configure_radiobuttons (f : Handler) : Py unit :=
  modify (λ w, with_radiobuttons ((λ _, Some f) <$> radiobuttons w) w).

(** [str(self)], evaluated where a message interpolates [{self}]; only
    whether it raises is kept.  [Radiogroup.__str__] reads [self.choices],
    which neither [Radiogroup] nor [RadiogroupBase] ever sets
    ([LabelRadiogroup.__str__] reads the property [options]); every other
    class formats attributes it has. *)
Definition __str__ : Py unit :=
  w ← get;
  match kind w with
  | Radiogroup => raise AttributeError
  | _ => mret tt
  end.

(** *** Construction *)

(** [{event_name: None for event_name in self._tk_event_mappings.keys()}] *)
Definition initial_events : gmap string (option Callable) :=
  list_to_map ((λ kv, (kv.1, None)) <$> _tk_event_mappings).

(** The event each constructor adds with [self._events[name] = None]. *)
Definition own_event (k : WidgetKind) : option string :=
  match k with
  | Button | ImageButton => Some "press"
  | Slider | Input | Secret | Checkbox | Radiogroup | LabelRadiogroup
  | Spinbox => Some "change"
  | Listbox | Dropdown => Some "select"
  | Label | StyleLabel | Hyperlink | Image | Textbox => None
  end.

(** The bindings the constructors of [Hyperlink] and [Textbox] make. *)
Definition initial_bindings (k : WidgetKind) : gmap string Handler :=
  match k with
  | Hyperlink =>
      <["<Button-1>" := hyperlink_open_link]> (<["<Enter>" := hyperlink_cursor]> ∅)
  | Textbox =>
      <["<Control-Tab>" := textbox_insert_tab]>
        (<["<Shift-Tab>" := textbox_focus_previous_widget]>
           (<["<Tab>" := textbox_focus_next_widget]> ∅))
  | _ => ∅
  end.

(** The widget a constructor leaves behind when no callback is passed.
    [choices] are the choices of a radio group (one radio button each);
    the other classes ignore them here.  A slider starts with an [IntVar]
    (0) and remembers it as its previous value; an input with an empty
    [StringVar]. *)
Definition new (k : WidgetKind) (choices : list string) : Widget :=
  {| kind := k;
     _events := match own_event k with
                | Some name => <[name := None]> initial_events
                | None => initial_events
                end;
     _value := if is_Slider k then Some (PyInt 0)
               else if is_Input k then Some (PyStr "")
               else None;
     _previous_value := if is_Slider k then Some (PyInt 0) else None;
     bindings := initial_bindings k;
     command := None;
     traces := [];
     radiobuttons := if is_RadiogroupBase k then (λ _, None) <$> choices else [];
     invoked := [] |}.

(** *** Dispatch *)

(** Calling the stored callable with the event, its one argument. *)
Definition call_callback (cb : Callable) (ev : GooeyPieEvent) : Py unit :=
  if accepts_one_argument cb then
    modify (λ w, with_invoked (invoked w ++ [(cb, ev)]) w)
  else raise TypeError.

(** [GooeyPieWidget._event] *)
Definition _event (name : string) (tk_event : option Payload) : Py unit :=
  try_except
    (gooeypie_event ← lift (GooeyPieEvent_init name tk_event);
     w ← get;
     listener ← subscript (_events w !! name);
     match listener with
     | Some cb => call_callback cb gooeypie_event
     | None => raise TypeError           (* None is not callable *)
     end)
    KeyError
    (raise AttributeError).

(** Reading an attribute that only some classes set. *)
Definition attribute {A} (a : option A) : Py A :=
  match a with
  | Some v => mret v
  | None => raise AttributeError
  end.

(** [GooeyPieWidget._slider_change_event]; the slider value passed by the
    toolkit is ignored in favour of [self._value.get()]. *)
Definition _slider_change_event (name : string) : Py unit :=
  w ← get;
  value ← attribute (_value w);
  previous ← attribute (_previous_value w);
  if decide (value ≠ previous) then
    modify (with_previous_value (Some value));;
    _event name None
  else mret tt.

(** [GooeyPieWidget._text_change_event] *)
Definition _text_change_event (name : string) : Py unit :=
  _event name None.

(** [GooeyPieWidget.add_event_listener] *)
Definition add_event_listener (name : string) (callback : Callable) : Py unit :=
  w ← get;
  if decide (_events w !! name = None) then
    __str__;; raise GooeyPieError
  else
    argcount ← attribute (code_argcount callback);
    if decide (argcount ≠ 1%nat) then
      raise GooeyPieError
    else
    modify (with_events <[name := Some callback]>);;
    match tk_sequence_of name with
    | Some sequence => bind sequence (partial_event name)
    | None => mret tt
    end;;
    when (bool_decide (name = "change"))
      (when (is_RadiogroupBase (kind w))
         (configure_radiobuttons (partial_event name));;
       when (is_Slider (kind w))
         (configure_command (Some (partial_slider_change_event name)));;
       when (is_Checkbox_or_Spinbox (kind w))
         (configure_command (Some (partial_event name)));;
       when (is_Input (kind w))
         (trace (partial_text_change_event name));;
       when (is_Textbox (kind w))
         (bind "<<Modified>>" (partial_event name)));;
    when (bool_decide (name = "press"))
      (configure_command (Some (partial_event name)));;
    when (bool_decide (name = "select"))
      (if is_Listbox (kind w) then bind "<<ListboxSelect>>" (partial_event name)
       else if is_Dropdown (kind w) then bind "<<ComboboxSelected>>" (partial_event name)
       else mret tt).

(** [GooeyPieWidget.remove_event_listener] *)
Definition remove_event_listener (name : string) : Py unit :=
  try_except
    (modify (with_events <[name := None]>);;
     if decide (name ∈ ["change"; "press"]) then
       configure_command None
     else
       sequence ← subscript (tk_sequence_of name);
       unbind sequence)
    KeyError
    (__str__;; raise ValueError).

(** *** Native triggers *)

(** The arguments the toolkit passes to a callable: none (a button,
    check button, spin box or radio button command), the tk event (a
    sequence binding), the new value (the command of a Scale), or the
    three names a variable trace receives. *)
Inductive Args :=
| no_args
| event_arg (e : tk.Event)
| value_arg (v : Z)
| trace_args.

(** Calling a handler.  A wrong number of arguments is a TypeError; the
    toolkit's own handlers of [Hyperlink] and [Textbox] call no user
    callback. *)
Definition call (h : Handler) (a : Args) : Py unit :=
  match h, a with
  | partial_event name, no_args => _event name None
  | partial_event name, event_arg e => _event name (Some (TkEv e))
  | partial_event name, value_arg v => _event name (Some (ScaleValue v))
  | partial_slider_change_event name, (event_arg _ | value_arg _) =>
      _slider_change_event name
  | partial_text_change_event name, trace_args => _text_change_event name
  | (hyperlink_cursor | hyperlink_open_link | textbox_focus_next_widget
    | textbox_focus_previous_widget | textbox_insert_tab), event_arg _ => mret tt
  | _, _ => raise TypeError
  end.

(** What the toolkit can do to a widget on its own. *)
Inductive Native :=
| tk_sequence (sequence : string) (e : tk.Event) (* an event matching [sequence] *)
| command_invoked                                (* button pressed, box toggled, spin *)
| scale_moved (v : Z)                            (* the Scale is set to [v] *)
| variable_written (s : string)                  (* the entry's StringVar is set to [s] *)
| radiobutton_invoked (i : nat).                 (* the [i]-th radio button is chosen *)

(** Run the handlers in turn.  The toolkit calls each through a wrapper
    that reports an exception and carries on, so none propagates. *)
Fixpoint call_all (hs : list Handler) (a : Args) (w : Widget) : Widget :=
  match hs with
  | [] => w
  | h :: rest => call_all rest a (call h a w).2
  end.

(** The handlers a native trigger runs, and the arguments they get. *)
Definition handlers (n : Native) (w : Widget) : list Handler :=
  match n with
  | tk_sequence sequence _ => option_list (bindings w !! sequence)
  | command_invoked => option_list (command w)
  | scale_moved _ => if is_Slider (kind w) then option_list (command w) else []
  | variable_written _ => if is_Input (kind w) then traces w else []
  | radiobutton_invoked i => option_list (mjoin (radiobuttons w !! i))
  end.

Definition args_of (n : Native) : Args :=
  match n with
  | tk_sequence _ e => event_arg e
  | command_invoked | radiobutton_invoked _ => no_args
  | scale_moved v => value_arg v
  | variable_written _ => trace_args
  end.

(** The effect of a native trigger on the widget.  A Scale writes its
    linked variable and then calls its command with the value; writing a
    StringVar runs its write traces. *)
Definition fire (n : Native) (w : Widget) : Widget :=
  let written :=
    match n with
    | scale_moved v =>
        if is_Slider (kind w) then with_value (Some (PyInt v)) w else w
    | variable_written s =>
        if is_Input (kind w) then with_value (Some (PyStr s)) w else w
    | _ => w
    end in
  call_all (handlers n w) (args_of n) written.

(** The native trigger [add_event_listener] wires each event name to. *)
Definition is_trigger_of (k : WidgetKind) (name : string) (n : Native) : bool :=
  match n with
  | tk_sequence sequence _ =>
      bool_decide (tk_sequence_of name = Some sequence)
      || (bool_decide (name = "change") && is_Textbox k
          && bool_decide (sequence = "<<Modified>>"))
      || (bool_decide (name = "select") && is_Listbox k
          && bool_decide (sequence = "<<ListboxSelect>>"))
      || (bool_decide (name = "select") && is_Dropdown k
          && bool_decide (sequence = "<<ComboboxSelected>>"))
  | command_invoked =>
      bool_decide (name = "press")
      || (bool_decide (name = "change") && is_Checkbox_or_Spinbox k)
  | scale_moved _ => bool_decide (name = "change") && is_Slider k
  | variable_written _ => bool_decide (name = "change") && is_Input k
  | radiobutton_invoked _ => bool_decide (name = "change") && is_RadiogroupBase k
  end.

(** *** Reachable widgets *)

(** One step in the life of a widget: a listener is added or removed
    (whether or not the call raises), or the toolkit fires. *)
Inductive step : Widget → Widget → Prop :=
| step_add name callback w :
    step w (add_event_listener name callback w).2
| step_remove name w :
    step w (remove_event_listener name w).2
| step_fire n w :
    step w (fire n w).

Inductive reachable : Widget → Prop :=
| reachable_new k choices : reachable (new k choices)
| reachable_step w w' : reachable w → step w w' → reachable w'.

(** The event names a class supports: those its constructor enters in
    [_events]. *)
Definition supported (k : WidgetKind) (name : string) : Prop :=
  is_Some (_events (new k []) !! name).

(** ** Predicates used by the properties *)

(** The callable [add_event_listener] hands to the toolkit for a trigger. *)
Definition dispatcher_of (name : string) (n : Native) : Handler :=
  match n with
  | scale_moved _ => partial_slider_change_event name
  | variable_written _ => partial_text_change_event name
  | _ => partial_event name
  end.

(** A radio button can be chosen only if the group has it. *)
Definition exists_natively (n : Native) (w : Widget) : Prop :=
  match n with
  | radiobutton_invoked i => (i < length (radiobuttons w))%nat
  | _ => True
  end.

(** The native trigger of [name] is attached: every trigger of the name
    that the widget has runs the dispatcher of the name. *)
Definition attached (name : string) (w : Widget) : Prop :=
  ∀ n, is_trigger_of (kind w) name n = true → exists_natively n w →
       dispatcher_of name n ∈ handlers n w.

(** The event a command or a trace dispatches: no tk event comes with it. *)
Definition change_event : GooeyPieEvent :=
  {| event_name := "change"; mouse := None; key := None |}.

(** [preserves P m]: if [P] holds of the widget before [m] runs, it holds
    of the widget [m] leaves behind, whether [m] returns or raises. *)
Definition preserves {A} (P : Widget → Prop) (m : Py A) : Prop :=
  ∀ w, P w → P (m w).2.

(** Dispatch changes only [_previous_value] and the log of calls. *)
Definition same_wiring (w0 w : Widget) : Prop :=
  kind w = kind w0 ∧ _events w = _events w0 ∧ bindings w = bindings w0
  ∧ command w = command w0 ∧ traces w = traces w0
  ∧ radiobuttons w = radiobuttons w0.

(** The toolkit hooks that only add_event_listener fills hold the
    dispatcher it puts there: the three virtual sequences, the traces and
    the radio buttons' commands; and only a class with a [command] option
    has a command. *)
Record wired (w : Widget) : Prop := {
  wired_listbox :
    ∀ h, bindings w !! "<<ListboxSelect>>" = Some h → h = partial_event "select";
  wired_combobox :
    ∀ h, bindings w !! "<<ComboboxSelected>>" = Some h → h = partial_event "select";
  wired_modified :
    ∀ h, bindings w !! "<<Modified>>" = Some h → h = partial_event "change";
  wired_command :
    ∀ h, command w = Some h → has_command_option (kind w) = true;
  wired_traces :
    Forall (λ h, h = partial_text_change_event "change") (traces w);
  wired_radiobuttons :
    Forall (λ c, ∀ h, c = Some h → h = partial_event "change") (radiobuttons w)
}.

(** What [_event] receives from a native trigger: the tk event of a
    sequence binding, nothing from a command or a trace (the slider's
    dispatcher drops the value it is given). *)
Definition payload_of (n : Native) : option Payload :=
  match n with
  | tk_sequence _ e => Some (TkEv e)
  | _ => None
  end.

(** Registration and removal leave the class, the linked variable, the
    previous value and the log of calls alone. *)
Definition same_data (w0 w : Widget) : Prop :=
  kind w = kind w0 ∧ _value w = _value w0
  ∧ _previous_value w = _previous_value w0 ∧ invoked w = invoked w0.


(** Every name the class supports is a key of the table. *)
Definition keeps_supported (w : Widget) : Prop :=
  ∀ name, supported (kind w) name → is_Some (_events w !! name).

(** [Button.__init__] as far as the mixin goes: the widget of a fresh
    button, and [add_event_listener('press', callback)] when a callback is
    passed.  [None] is falsy; a function, a bound method, a builtin and a
    partial are truthy, and so is a callable object unless its class
    defines [__bool__] or [__len__], which is left out here. *)
Definition Button___init__ (callback : option Callable) : Outcome unit * Widget :=
  match callback with
  | Some cb => add_event_listener "press" cb (new Button [])
  | None => (Returned tt, new Button [])
  end.

(** A string here holds the UTF-8 bytes of a Python str.  Every code point
    is encoded with exactly one byte that is not a continuation byte
    (10xxxxxx, that is 128 to 191). *)
Definition is_continuation_byte (a : ascii) : bool :=
  ((128 <=? N_of_ascii a) && (N_of_ascii a <=? 191))%N.

(** [len(text)] of a str: the number of its code points. *)
Fixpoint len (text : string) : nat :=
  match text with
  | EmptyString => 0
  | String a rest => (if is_continuation_byte a then 0 else 1) + len rest
  end.

(** The width [Button.__init__] configures:
    [max(min_size, len(text) + 2)]. *)
Definition Button_size (min_size : Z) (text : string) : Z :=
  Z.max min_size (Z.of_nat (len text) + 2).

(** * The property facade *)

(** ** Input.secret *)

Module InputFacade.

(** The native option the [secret] property translates to: the masking
    character of the entry ([show]). *)
Record Entry := { show : string }.

(** The setter of [secret]: [configure(show='●')] for a truthy value,
    [configure(show='')] otherwise. *)
Definition secret_setter (value : bool) (e : Entry) : Entry :=
  if value then {| show := "●" |} else {| show := "" |}.

(** The getter of [secret]: its body is [return self.secret], which reads
    the property again and so calls the getter again.  [frames] is the
    number of frames the interpreter still allows; when none is left,
    RecursionError is raised. *)
Fixpoint secret (frames : nat) (e : Entry) : Outcome bool :=
  match frames with
  | O => Raised RecursionError
  | S frames' => secret frames' e
  end.

End InputFacade.

(** ** StyleLabel: the font properties *)

Module StyleLabelFacade.

(** The dictionary [font.Font(...).actual()] returns; the setters store
    Python values of either type under its keys. *)
Record FontDict := {
  family : PyValue;
  size : PyValue;
  weight : PyValue;
  slant : PyValue;
  underline : PyValue;
  overstrike : PyValue
}.

(** The [font] option of the label's style: a named font, or the list
    [[family, size, options]] that [_set_font] builds. *)
Inductive FontOption :=
| named_font (name : string)
| font_string (family size : PyValue) (options : string).

Record StyleLabel := { style_font : FontOption }.

(** [new_font[key] = value] *)
Definition setitem (d : FontDict) (key : string) (value : PyValue) : FontDict :=
  if decide (key = "family") then
    {| family := value; size := size d; weight := weight d; slant := slant d;
       underline := underline d; overstrike := overstrike d |}
  else if decide (key = "size") then
    {| family := family d; size := value; weight := weight d; slant := slant d;
       underline := underline d; overstrike := overstrike d |}
  else if decide (key = "weight") then
    {| family := family d; size := size d; weight := value; slant := slant d;
       underline := underline d; overstrike := overstrike d |}
  else if decide (key = "slant") then
    {| family := family d; size := size d; weight := weight d; slant := value;
       underline := underline d; overstrike := overstrike d |}
  else if decide (key = "underline") then
    {| family := family d; size := size d; weight := weight d; slant := slant d;
       underline := value; overstrike := overstrike d |}
  else if decide (key = "overstrike") then
    {| family := family d; size := size d; weight := weight d; slant := slant d;
       underline := underline d; overstrike := value |}
  else d.

(** The option words [_set_font] collects, in its order. *)
Definition font_options (d : FontDict) : list string :=
  (if decide (weight d = PyStr "bold") then ["bold"] else [])
  ++ (if decide (slant d = PyStr "italic") then ["italic"] else [])
  ++ (if decide (underline d = PyInt 1) then ["underline"] else [])
  ++ (if decide (overstrike d = PyInt 1) then ["overstrike"] else []).

Section Toolkit.

(** [font.Font(font=f).actual()], the toolkit's resolution of a font
    option to a dictionary. *)
Variable actual : FontOption → FontDict.

(** [StyleLabel._get_current_font] *)
Definition _get_current_font (s : StyleLabel) : FontDict :=
  actual (style_font s).

(** [StyleLabel._set_font] *)
Definition _set_font (d : FontDict) (s : StyleLabel) : StyleLabel :=
  {| style_font := font_string (family d) (size d)
                     (String.concat " " (font_options d)) |}.

(** [StyleLabel._set_font_property] *)
Definition _set_font_property (key : string) (value : PyValue) (s : StyleLabel)
  : StyleLabel :=
  _set_font (setitem (_get_current_font s) key value) s.

(** The setter of [font_weight] *)
Definition font_weight_setter (value : string) (s : StyleLabel)
  : Outcome unit * StyleLabel :=
  match index ["bold"; "normal"] value with
  | Returned _ => (Returned tt, _set_font_property "weight" (PyStr value) s)
  | Raised _ => (Raised ValueError, s)
  end.

(** The setter of [font_style] *)
Definition font_style_setter (value : string) (s : StyleLabel)
  : Outcome unit * StyleLabel :=
  match index ["italic"; "normal"] value with
  | Returned _ => (Returned tt, _set_font_property "slant" (PyStr value) s)
  | Raised _ => (Raised ValueError, s)
  end.

(** The setter of [underline]: 0 for normal, 1 for underline *)
Definition underline_setter (value : string) (s : StyleLabel)
  : Outcome unit * StyleLabel :=
  match index ["normal"; "underline"] value with
  | Returned i =>
      (Returned tt, _set_font_property "underline" (PyInt (Z.of_nat i)) s)
  | Raised _ => (Raised ValueError, s)
  end.

(** The setter of [strikethrough]: 0 for normal, 1 for strikethrough *)
Definition strikethrough_setter (value : string) (s : StyleLabel)
  : Outcome unit * StyleLabel :=
  match index ["normal"; "strikethrough"] value with
  | Returned i =>
      (Returned tt, _set_font_property "overstrike" (PyInt (Z.of_nat i)) s)
  | Raised _ => (Raised ValueError, s)
  end.

End Toolkit.

End StyleLabelFacade.

(** ** Dropdown.selected *)

Module DropdownFacade.

(** The combobox: its [values] option (the choices given to the
    constructor) and the text it shows. *)
Record Combobox := { values : list string; text : string }.

(** [self.set(value)] *)
Definition set (value : string) (d : Combobox) : Combobox :=
  {| values := values d; text := value |}.

(** [self.current()]: the position of the text among the values, -1 when
    it is none of them. *)
Definition current (d : Combobox) : Z :=
  match index (values d) (text d) with
  | Returned i => Z.of_nat i
  | Raised _ => -1
  end.

(** The getter of [selected] *)
Definition selected (d : Combobox) : option string :=
  if decide (current d = -1) then None
  else values d !! Z.to_nat (current d).

(** The setter of [selected] *)
Definition selected_setter (value : string) (d : Combobox)
  : Outcome unit * Combobox :=
  match index (values d) value with
  | Returned _ => (Returned tt, set value d)
  | Raised _ => (Raised ValueError, d)
  end.

End DropdownFacade.

(** ** RadiogroupBase.selected *)

Module RadiogroupFacade.

(** The radio buttons of a group: the text of each ([options]) and the
    [StringVar] they share ([_selected]). *)
Record Radiobuttons := { options : list string; _selected : string }.

(** [RadiogroupBase.__init__]: one radio button for each choice, and an
    empty [StringVar]. *)
Definition __init__ (choices : list string) : Radiobuttons :=
  {| options := choices; _selected := "" |}.

(** The getter of [selected]: None for the empty string. *)
Definition selected (g : Radiobuttons) : option string :=
  if decide (_selected g = "") then None else Some (_selected g).

(** The setter of [selected]: [self._selected.set(value)]. *)
Definition selected_setter (value : string) (g : Radiobuttons)
  : Outcome unit * Radiobuttons :=
  (Returned tt, {| options := options g; _selected := value |}).

End RadiogroupFacade.

(** ** Listbox: the selection accessors *)

Module ListboxFacade.

(** The lines of the listbox and [self.curselection()], the indices of
    the selected lines. *)
Record Lines := { items : list string; curselection : list nat }.

(** The three shapes the accessors return: None, one element, or the
    whole collection. *)
Inductive Selection (A : Type) :=
| Nothing
| Single (a : A)
| Several (l : list A).
Arguments Nothing {A}.
Arguments Single {A} a.
Arguments Several {A} l.

(** The getter of [selected_index] *)
Definition selected_index (lb : Lines) : Selection nat :=
  match curselection lb with
  | [] => Nothing
  | [i] => Single i
  | select => Several select
  end.

(** [self.get(0, 'end')[index]] *)
Definition getitem (lb : Lines) (index : nat) : Outcome string :=
  match items lb !! index with
  | Some line => Returned line
  | None => Raised IndexError
  end.

(** [[self.get(0, 'end')[index] for index in select]] *)
Fixpoint getitems (lb : Lines) (select : list nat) : Outcome (list string) :=
  match select with
  | [] => Returned []
  | index :: rest =>
      match getitem lb index with
      | Returned line =>
          match getitems lb rest with
          | Returned lines => Returned (line :: lines)
          | Raised e => Raised e
          end
      | Raised e => Raised e
      end
  end.

(** The getter of [selected] *)
Definition selected (lb : Lines) : Outcome (Selection string) :=
  match curselection lb with
  | [] => Returned Nothing
  | [i] =>
      match getitem lb i with
      | Returned line => Returned (Single line)
      | Raised e => Raised e
      end
  | select =>
      match getitems lb select with
      | Returned lines => Returned (Several lines)
      | Raised e => Raised e
      end
  end.

End ListboxFacade.

(** ** Secret: masking *)

Module SecretFacade.

(** [Secret.__init__]: the entry of an Input (whose constructor sets
    [secret = False]), then [configure(show='●')]. *)
Definition __init__ : InputFacade.Entry :=
  {| InputFacade.show := "●" |}.

(** [Secret.unmask] *)
Definition unmask (e : InputFacade.Entry) : InputFacade.Entry :=
  {| InputFacade.show := "" |}.

(** [Secret.mask] *)
Definition mask (e : InputFacade.Entry) : InputFacade.Entry :=
  {| InputFacade.show := "●" |}.

(** [Secret.toggle]: a non-empty [show] is truthy. *)
Definition toggle (e : InputFacade.Entry) : InputFacade.Entry :=
  if decide (InputFacade.show e ≠ "") then unmask e else mask e.

End SecretFacade.

(** ** Textbox: text, width and height *)

Module TextboxFacade.

(** The text widget: its characters without the newline the toolkit keeps
    at the end, and its [width] and [height] options. *)
Record Text := { content : string; width : Z; height : Z }.

Definition newline : string := String "010"%char EmptyString.

(** [s[:-1]] *)
Fixpoint but_last (s : string) : string :=
  match s with
  | EmptyString => EmptyString
  | String c EmptyString => EmptyString
  | String c rest => String c (but_last rest)
  end.

(** [self.get('1.0', 'end')]: the characters and the final newline. *)
Definition get_all (t : Text) : string := content t ++ newline.

(** [self.delete('1.0', 'end')] *)
Definition clear (t : Text) : Text :=
  {| content := ""; width := width t; height := height t |}.

(** [self.insert('1.0', text)] *)
Definition insert_start (s : string) (t : Text) : Text :=
  {| content := s ++ content t; width := width t; height := height t |}.

(** The getter of [text] *)
Definition text (t : Text) : string := but_last (get_all t).

(** The setter of [text] *)
Definition text_setter (s : string) (t : Text) : Text :=
  insert_start s (clear t).

(** [Textbox.append]: [self.text += text] *)
Definition append (s : string) (t : Text) : Text :=
  text_setter (text t ++ s) t.

(** The setters of [width] and [height] *)
Definition width_setter (cols : Z) (t : Text) : Text :=
  {| content := content t; width := cols; height := height t |}.
Definition height_setter (rows : Z) (t : Text) : Text :=
  {| content := content t; width := width t; height := rows |}.

(** The getter of [width]: [self.cget('width')] *)
Definition width_getter (t : Text) : Z := width t.

(** The getter of [height]: it, too, is [self.cget('width')]. *)
Definition height_getter (t : Text) : Z := width t.

End TextboxFacade.

(** ** Dropdown.selected_index *)

Module DropdownIndex.

(** The getter of [selected_index] *)
Definition selected_index (d : DropdownFacade.Combobox) : option Z :=
  if decide (DropdownFacade.current d = -1) then None
  else Some (DropdownFacade.current d).

(** [self.current(index)]: the toolkit shows the value at [index], and
    raises TclError when the index is not a position of the list. *)
Definition current_set (index : Z) (d : DropdownFacade.Combobox)
  : Outcome unit * DropdownFacade.Combobox :=
  if decide (0 ≤ index)%Z then
    match DropdownFacade.values d !! Z.to_nat index with
    | Some value => (Returned tt, DropdownFacade.set value d)
    | None => (Raised TclError, d)
    end
  else (Raised TclError, d).

(** The setter of [selected_index]: any exception becomes IndexError. *)
Definition selected_index_setter (index : Z) (d : DropdownFacade.Combobox)
  : Outcome unit * DropdownFacade.Combobox :=
  match current_set index d with
  | (Returned tt, d') => (Returned tt, d')
  | (Raised _, d') => (Raised IndexError, d')
  end.

End DropdownIndex.

(** ** Listbox: adding lines and selecting *)

Module ListboxEdit.

(** [Listbox.add_option]: [self.insert('end', item)]; the selection is
    untouched by an insertion at the end. *)
Definition add_option (item : string) (lb : ListboxFacade.Lines)
  : ListboxFacade.Lines :=
  {| ListboxFacade.items := ListboxFacade.items lb ++ [item];
     ListboxFacade.curselection := ListboxFacade.curselection lb |}.

(** Insertion into the ascending list of selected indices. *)
Fixpoint select (index : nat) (selection : list nat) : list nat :=
  match selection with
  | [] => [index]
  | i :: rest =>
      if decide (index = i) then selection
      else if decide (index < i)%nat then index :: selection
      else i :: select index rest
  end.

(** The setter of [selected_index]: [self.activate(index)] and
    [self.selection_set(index)].  The toolkit adds the line to the
    selection without touching the state of the other lines, and ignores
    an index past the last line. *)
Definition selected_index_setter (index : nat) (lb : ListboxFacade.Lines)
  : ListboxFacade.Lines :=
  if decide (index < length (ListboxFacade.items lb))%nat then
    {| ListboxFacade.items := ListboxFacade.items lb;
       ListboxFacade.curselection := select index (ListboxFacade.curselection lb) |}
  else lb.

End ListboxEdit.

(** ** StyleLabel: name, size and [set_font] *)

Module StyleLabelFont.

Import StyleLabelFacade.

(** [options.split(' ')]: the pieces between single spaces, empty pieces
    included; the empty string gives one empty piece. *)
Fixpoint split (s : string) : list string :=
  match s with
  | EmptyString => [""]
  | String c rest =>
      if decide (c = " "%char) then "" :: split rest
      else match split rest with
           | piece :: pieces => String c piece :: pieces
           | [] => [String c ""]
           end
  end.

Section Toolkit.

(** The toolkit's part: the resolution of a font option, the dictionary
    of the default font ([font.nametofont('TkDefaultFont').actual()]) and
    Python's [int] on a string. *)
Variable actual : FontOption → FontDict.
Variable default_font : FontDict.
Variable int : string → Outcome Z.

(** The setter of [font_name] *)
Definition font_name_setter (value : string) (s : StyleLabel) : StyleLabel :=
  if decide (value = "default") then
    _set_font_property actual "family" (family default_font) s
  else _set_font_property actual "family" (PyStr value) s.

(** The setter of [font_size]: the string 'default', or anything [int]
    converts; a ValueError of the conversion is raised again. *)
Definition font_size_setter (value : PyValue) (s : StyleLabel)
  : Outcome unit * StyleLabel :=
  if decide (value = PyStr "default") then
    (Returned tt, _set_font_property actual "size" (size default_font) s)
  else
    match value with
    | PyInt z => (Returned tt, _set_font_property actual "size" (PyInt z) s)
    | PyStr text =>
        match int text with
        | Returned z => (Returned tt, _set_font_property actual "size" (PyInt z) s)
        | Raised e => (Raised e, s)
        end
    end.

(** One turn of the loop of [set_font] *)
Definition set_option (option : string) (s : StyleLabel)
  : Outcome unit * StyleLabel :=
  if decide (option = "bold") then font_weight_setter actual "bold" s
  else if decide (option = "italic") then font_style_setter actual "italic" s
  else if decide (option = "underline") then underline_setter actual "underline" s
  else if decide (option = "strikethrough") then
    strikethrough_setter actual "strikethrough" s
  else (Raised ValueError, s).

(** [for option in options: ...] *)
Fixpoint set_options (options : list string) (s : StyleLabel)
  : Outcome unit * StyleLabel :=
  match options with
  | [] => (Returned tt, s)
  | option :: rest =>
      match set_option option s with
      | (Returned _, s') => set_options rest s'
      | (Raised e, s') => (Raised e, s')
      end
  end.

(** [StyleLabel.set_font] *)
Definition set_font (font : string) (size : PyValue) (options : string)
  (s : StyleLabel) : Outcome unit * StyleLabel :=
  match font_size_setter size (font_name_setter font s) with
  | (Returned _, s') => set_options (split options) s'
  | (Raised e, s') => (Raised e, s')
  end.

End Toolkit.

End StyleLabelFont.

(** The words [set_font] accepts as options. *)
Definition known_option (option : string) : Prop :=
  option ∈ ["bold"; "italic"; "underline"; "strikethrough"].

(** ** Image.image *)

Module ImageFacade.

(** The label of an image: the path kept in [_image] and the path of the
    picture the toolkit shows. *)
Record Picture := { _image : option string; shown : option string }.

(** [image[-3:]] *)
Definition last_three (image : string) : string :=
  String.substring (String.length image - 3) 3 image.

Section Toolkit.

(** Whether Pillow was imported, and the toolkit's loader
    ([tk.PhotoImage(file=...)] or [ImageTk.PhotoImage(PILImage.open(...))]),
    which raises on a file it cannot read. *)
Variable PILLOW : bool.
Variable load : string → Outcome unit.

(** The setter of [image] *)
Definition image_setter (image : string) (p : Picture) : Outcome unit * Picture :=
  if negb PILLOW && bool_decide (last_three image ≠ "gif") then
    (Raised ValueError, p)
  else
    let p' := {| _image := Some image; shown := shown p |} in
    match load image with
    | Returned _ => (Returned tt, {| _image := Some image; shown := Some image |})
    | Raised e => (Raised e, p')
    end.

(** The getter of [image] *)
Definition image (p : Picture) : Outcome string :=
  match _image p with
  | Some path => Returned path
  | None => Raised AttributeError
  end.

End Toolkit.

End ImageFacade.

(** * Properties of the mixin *)

(** Unfolding of the monad's operations. *)
Ltac py_unfold :=
  unfold try_except, subscript, attribute, when, configure_command, bind,
    unbind, trace, configure_radiobuttons, __str__, call_callback, lift,
    modify, get, raise, mbind, mret, Py_bind, Py_ret in *.

(** Running a method whose widget has a known class. *)
Ltac py_run Hk := repeat (progress (simpl; rewrite ?Hk)).

(** Past the two guards of add_event_listener: the name is a key
    ([Hl : _events w !! name = Some l]) and the code object counts one
    argument ([Hcode : code_argcount cb = Some 1]). *)
Ltac py_guards Hl Hcode :=
  unfold add_event_listener; py_unfold; rewrite Hcode; simpl;
  rewrite decide_False by congruence; simpl.

Section Dispatch.

Variables (w : Widget) (name : string).

(** With a callable stored under [name] that a call with one argument
    binds, [_event] calls it once with the event built from the payload,
    and returns. *)
Lemma _event_registered (tk_event : option Payload) cb ev :
  _events w !! name = Some (Some cb) →
  accepts_one_argument cb = true →
  GooeyPieEvent_init name tk_event = Returned ev →
  _event name tk_event w
  = (Returned tt, with_invoked (invoked w ++ [(cb, ev)]) w).
Proof.
  intros Hcb Hacc Hev. unfold _event. py_unfold. rewrite Hev. simpl.
  rewrite Hcb. simpl. rewrite Hacc. reflexivity.
Qed.

(** A name missing from the table is reported as AttributeError. *)
Lemma _event_unknown_name (tk_event : option Payload) :
  _events w !! name = None →
  _event name tk_event w = (Raised AttributeError, w).
Proof.
  intros Hnone. unfold _event. py_unfold.
  destruct (GooeyPieEvent_init name tk_event) as [ev|e] eqn:Hev; simpl.
  - rewrite Hnone. reflexivity.
  - destruct tk_event as [[?|?]|]; simpl in Hev; try discriminate.
    injection Hev as <-. reflexivity.
Qed.

(** Without a callback under [name] nothing is called and the widget is
    left as it was. *)
Lemma _event_no_callback (tk_event : option Payload) :
  (∀ cb, _events w !! name ≠ Some (Some cb)) →
  (_event name tk_event w).2 = w.
Proof.
  intros Hno. unfold _event. py_unfold.
  destruct (GooeyPieEvent_init name tk_event) as [ev|e]; simpl.
  - destruct (_events w !! name) as [[cb|]|] eqn:Hl; simpl; try reflexivity.
    exfalso. apply (Hno cb). reflexivity.
  - destruct (decide (e = KeyError)); reflexivity.
Qed.

End Dispatch.

(** The table after a removal, whatever the call's outcome. *)
Lemma remove_event_listener_events name w :
  _events (remove_event_listener name w).2 = <[name := None]> (_events w).
Proof.
  unfold remove_event_listener. py_unfold. simpl.
  destruct (decide (name ∈ ["change"; "press"])).
  - simpl. destruct (has_command_option (kind w)); reflexivity.
  - destruct (tk_sequence_of name); simpl; [reflexivity|].
    destruct (kind w); reflexivity.
Qed.

(** The table after a registration attempt: either untouched or updated
    at [name], which was a key already. *)
Lemma add_event_listener_events name cb w :
  _events (add_event_listener name cb w).2 = _events w
  ∨ (is_Some (_events w !! name)
     ∧ _events (add_event_listener name cb w).2 = <[name := Some cb]> (_events w)).
Proof.
  unfold add_event_listener. py_unfold. simpl.
  destruct (decide (_events w !! name = None)) as [Hn|Hn].
  { left. destruct (kind w); reflexivity. }
  destruct (code_argcount cb) as [argcount|]; simpl; [|left; reflexivity].
  destruct (decide (argcount ≠ 1%nat)); [left; reflexivity|].
  right. split.
  { destruct (_events w !! name); [eauto|congruence]. }
  simpl.
  destruct (tk_sequence_of name), (bool_decide (name = "change")),
    (bool_decide (name = "press")), (bool_decide (name = "select")),
    (kind w) eqn:Hk; py_run Hk; reflexivity.
Qed.

(** ** The supported names of each class *)

Lemma list_to_map_keys_lookup (table : list (string * string)) name :
  (list_to_map ((λ kv, (kv.1, None)) <$> table) : gmap string (option Callable))
    !! name
  = (λ _, None) <$> assoc name table.
Proof.
  induction table as [|[k v] rest IH]; simpl; [reflexivity|].
  rewrite lookup_insert. destruct (decide (name = k)) as [->|Hne].
  - rewrite decide_True by reflexivity. reflexivity.
  - rewrite decide_False by congruence. exact IH.
Qed.

Lemma initial_events_lookup name :
  initial_events !! name = (λ _, None) <$> tk_sequence_of name.
Proof. apply list_to_map_keys_lookup. Qed.

Lemma supported_iff k name :
  supported k name ↔ own_event k = Some name ∨ is_Some (tk_sequence_of name).
Proof.
  unfold supported. simpl. destruct (own_event k) as [own|].
  - rewrite lookup_insert. destruct (decide (own = name)) as [->|Hne].
    + split; [left; reflexivity | eauto].
    + rewrite initial_events_lookup, fmap_is_Some.
      split; [tauto | intros [?|?]; congruence || assumption].
  - rewrite initial_events_lookup, fmap_is_Some.
    split; [tauto | intros [?|?]; congruence || assumption].
Qed.

Lemma command_names_iff name :
  name ∈ ["change"; "press"] ↔ name = "change" ∨ name = "press".
Proof.
  rewrite elem_of_cons, list_elem_of_singleton. reflexivity.
Qed.

(** No name of the static table is one of the three command-style names. *)
Lemma tk_sequence_of_not_special name sequence :
  tk_sequence_of name = Some sequence →
  name ≠ "change" ∧ name ≠ "press" ∧ name ≠ "select".
Proof.
  intros H. repeat split; intros ->; vm_compute in H; discriminate.
Qed.

(** ** Registration *)

(** add_event_listener with a name outside the table: every class but
    [Radiogroup] raises GooeyPieError and changes nothing. *)
Lemma add_event_listener_invalid_event w name cb :
  kind w ≠ Radiogroup →
  _events w !! name = None →
  add_event_listener name cb w = (Raised GooeyPieError, w).
Proof.
  intros Hk Hn. unfold add_event_listener. py_unfold. simpl.
  rewrite decide_True by assumption.
  destruct (kind w); try reflexivity. congruence.
Qed.

(** C2 (the code departs from it on [Radiogroup]): add_event_listener
    with an event name outside the widget's table should raise
    GooeyPieError; on a [Radiogroup] formatting the message evaluates
    [Radiogroup.__str__], which reads the missing attribute [choices], so
    AttributeError is raised instead.  Nothing is registered. *)
Theorem add_event_listener_invalid_event_Radiogroup w name cb :
  kind w = Radiogroup →
  _events w !! name = None →
  add_event_listener name cb w = (Raised AttributeError, w).
Proof.
  intros Hk Hn. unfold add_event_listener. py_unfold. simpl.
  rewrite decide_True by assumption. rewrite Hk. reflexivity.
Qed.

Lemma add_event_listener_invalid_event_Radiogroup_witness :
  kind (new Radiogroup ["yes"; "no"]) = Radiogroup
  ∧ _events (new Radiogroup ["yes"; "no"]) !! "press" = None
  ∧ add_event_listener "press" {| __name__ := "on_press"; co_argcount := 1 |}
      (new Radiogroup ["yes"; "no"])
    = (Raised AttributeError, new Radiogroup ["yes"; "no"]).
Proof.
  split; [reflexivity|]. split; [reflexivity|].
  apply add_event_listener_invalid_event_Radiogroup; reflexivity.
Defined.

(** The outcome of the second guard, for a name in the table: a callable
    without a code object raises AttributeError, one whose code object
    does not count exactly one argument raises GooeyPieError, and in both
    cases the widget is left as it was. *)
Lemma add_event_listener_rejects w name (cb : Callable) :
  is_Some (_events w !! name) →
  code_argcount cb ≠ Some 1%nat →
  add_event_listener name cb w
  = (Raised match code_argcount cb with
            | Some _ => GooeyPieError
            | None => AttributeError
            end, w).
Proof.
  intros [l Hl] Hcode. unfold add_event_listener. py_unfold. simpl.
  rewrite decide_False by congruence.
  destruct (code_argcount cb) as [argcount|]; simpl; [|reflexivity].
  rewrite decide_True by congruence. reflexivity.
Qed.

Lemma function_argcount (f : Callback) :
  co_argcount f = 1%nat → code_argcount f = Some 1%nat.
Proof. intros H. simpl. rewrite H. reflexivity. Qed.

Lemma add_event_listener_table_name w name (cb : Callable) sequence :
  tk_sequence_of name = Some sequence →
  is_Some (_events w !! name) →
  code_argcount cb = Some 1%nat →
  add_event_listener name cb w
  = (Returned tt,
     with_bindings <[sequence := partial_event name]>
       (with_events <[name := Some cb]> w)).
Proof.
  intros Hseq [l Hl] Harity.
  destruct (tk_sequence_of_not_special _ _ Hseq) as (Hc & Hp & Hs).
  py_guards Hl Harity.
  rewrite Hseq. simpl.
  rewrite !bool_decide_eq_false_2 by assumption. reflexivity.
Qed.

(** add_event_listener with a name the class supports and a callable
    whose code object counts one argument returns, stores the callable
    under the name and attaches the native trigger. *)
Lemma add_event_listener_registers w name (cb : Callable) :
  supported (kind w) name →
  is_Some (_events w !! name) →
  code_argcount cb = Some 1%nat →
  (add_event_listener name cb w).1 = Returned tt
  ∧ _events (add_event_listener name cb w).2 = <[name := Some cb]> (_events w)
  ∧ attached name (add_event_listener name cb w).2.
Proof.
  intros Hsup Hin Harity. apply supported_iff in Hsup as [Hown|[sequence Hseq]].
  - (* the class's own event: press, change or select *)
    destruct Hin as [l Hl].
    assert (tk_sequence_of name = None) as Hnoseq.
    { destruct (kind w); simpl in Hown; try discriminate;
        injection Hown as <-; reflexivity. }
    py_guards Hl Harity.
    rewrite Hnoseq.
    destruct (kind w) eqn:Hk; simpl in Hown; try discriminate;
      injection Hown as <-; py_run Hk;
      (split; [reflexivity|]); (split; [reflexivity|]);
      intros n Htrig Hnat; destruct n as [sequence e| |v|s|i];
      unfold handlers, dispatcher_of, is_trigger_of, exists_natively in *;
      simpl in *; rewrite ?Hk in *; simpl in *;
      rewrite ?orb_false_r in Htrig; try discriminate;
      try (apply list_elem_of_here).
    + (* Listbox, <<ListboxSelect>> *)
      apply bool_decide_eq_true in Htrig as ->.
      rewrite lookup_insert_eq. apply list_elem_of_here.
    + (* Radiogroup *)
      rewrite length_fmap in Hnat. rewrite list_lookup_fmap.
      destruct (lookup_lt_is_Some_2 _ _ Hnat) as [c ->]. apply list_elem_of_here.
    + (* LabelRadiogroup *)
      rewrite length_fmap in Hnat. rewrite list_lookup_fmap.
      destruct (lookup_lt_is_Some_2 _ _ Hnat) as [c ->]. apply list_elem_of_here.
    + (* Dropdown, <<ComboboxSelected>> *)
      apply bool_decide_eq_true in Htrig as ->.
      rewrite lookup_insert_eq. apply list_elem_of_here.
  - rewrite (add_event_listener_table_name _ _ _ _ Hseq Hin Harity). simpl.
    split; [reflexivity|]. split; [reflexivity|].
    destruct (tk_sequence_of_not_special _ _ Hseq) as (Hc & Hp & Hs).
    intros n Htrig _. destruct n as [sequence' e| |v|s|i]; simpl in *;
      rewrite ?(bool_decide_eq_false_2 _ Hc), ?(bool_decide_eq_false_2 _ Hp),
        ?(bool_decide_eq_false_2 _ Hs) in Htrig; simpl in Htrig;
      try discriminate.
    rewrite !orb_false_r in Htrig. apply bool_decide_eq_true in Htrig.
    rewrite Hseq in Htrig. injection Htrig as <-.
    rewrite lookup_insert_eq. apply list_elem_of_here.
Qed.

(** ** Dispatch without a listener *)

(** C5 (the code departs from it): dispatching with no callback
    registered should fail with the missing-listener condition, the
    AttributeError of [_event].  When the name is in the table with no
    callback (None, as after construction or removal), [_event] calls
    None: TypeError is raised, and the handler for KeyError does not
    apply. *)
Theorem _event_cleared_listener_TypeError w name :
  _events w !! name = Some None →
  _event name None w = (Raised TypeError, w).
Proof.
  intros Hl. unfold _event. py_unfold. simpl. rewrite Hl. reflexivity.
Qed.

Lemma _event_cleared_listener_TypeError_witness :
  _events (new Label []) !! "mouse_down" = Some None
  ∧ _event "mouse_down" None (new Label []) = (Raised TypeError, new Label []).
Proof.
  split; [reflexivity|].
  apply _event_cleared_listener_TypeError. reflexivity.
Defined.

(** ** Removal *)

Lemma remove_event_listener_table_name w name sequence :
  tk_sequence_of name = Some sequence →
  remove_event_listener name w
  = (Returned tt, with_bindings (delete sequence) (with_events <[name := None]> w)).
Proof.
  intros Hseq. destruct (tk_sequence_of_not_special _ _ Hseq) as (Hc & Hp & _).
  unfold remove_event_listener. py_unfold. simpl.
  rewrite decide_False by (rewrite command_names_iff; tauto).
  rewrite Hseq. reflexivity.
Qed.

Lemma remove_event_listener_command_name w name :
  name ∈ ["change"; "press"] →
  remove_event_listener name w
  = if has_command_option (kind w)
    then (Returned tt, with_command None (with_events <[name := None]> w))
    else (Raised TclError, with_events <[name := None]> w).
Proof.
  intros Hin. unfold remove_event_listener. py_unfold. simpl.
  rewrite decide_True by assumption. simpl.
  destruct (has_command_option (kind w)); reflexivity.
Qed.

Lemma remove_event_listener_other_name w name :
  name ∉ ["change"; "press"] →
  tk_sequence_of name = None →
  remove_event_listener name w
  = (Raised (if decide (kind w = Radiogroup) then AttributeError else ValueError),
     with_events <[name := None]> w).
Proof.
  intros Hin Hseq. unfold remove_event_listener. py_unfold. simpl.
  rewrite decide_False by assumption. rewrite Hseq. simpl.
  destruct (kind w); reflexivity.
Qed.

(** C4 (the code departs from it): remove_event_listener should succeed
    for every name the widget supports.  For "select" on a [Listbox] or a
    [Dropdown], which their constructors enter in the table, the method
    clears the entry, then looks the name up in [_tk_event_mappings],
    where it is missing, and raises ValueError; the binding made by
    add_event_listener stays. *)
Theorem remove_event_listener_select_raises w :
  is_Listbox (kind w) || is_Dropdown (kind w) = true →
  remove_event_listener "select" w
  = (Raised ValueError, with_events <["select" := None]> w).
Proof.
  intros Hk. rewrite remove_event_listener_other_name.
  - destruct (kind w); simpl in Hk; try discriminate; reflexivity.
  - rewrite command_names_iff. intros [?|?]; discriminate.
  - reflexivity.
Qed.

Lemma remove_event_listener_select_raises_witness :
  supported Listbox "select"
  ∧ is_Listbox (kind (new Listbox [])) || is_Dropdown (kind (new Listbox [])) = true
  ∧ remove_event_listener "select" (new Listbox [])
    = (Raised ValueError, with_events <["select" := None]> (new Listbox [])).
Proof.
  split; [exists None; reflexivity|]. split; [reflexivity|].
  apply remove_event_listener_select_raises. reflexivity.
Defined.

(** The converse also fails: "change" was never valid for a [Button], yet
    removing it returns normally (and clears the button's command). *)
Lemma remove_event_listener_unsupported_returns :
  ¬ supported Button "change"
  ∧ remove_event_listener "change" (new Button [])
    = (Returned tt, with_events <["change" := None]> (new Button [])).
Proof.
  split.
  - intros [l Hl]. vm_compute in Hl. discriminate.
  - reflexivity.
Qed.

(** ** The key set of the table *)

Lemma add_event_listener_dom name cb w :
  dom (_events (add_event_listener name cb w).2) = dom (_events w).
Proof.
  destruct (add_event_listener_events name cb w) as [->|[Hin ->]]; [reflexivity|].
  rewrite dom_insert_L. apply elem_of_dom in Hin.
  apply subseteq_union_1_L, singleton_subseteq_l, Hin.
Qed.

(** C6 (the code departs from it): the key set of the table should never
    grow after construction.  remove_event_listener assigns
    [self._events[name] = None] before anything can fail, so a name that
    was not a key becomes one: the key set grows strictly, whatever the
    call then raises. *)
Theorem remove_event_listener_enlarges_table w name :
  _events w !! name = None →
  dom (_events w) ⊂ dom (_events (remove_event_listener name w).2).
Proof.
  intros Hn. rewrite remove_event_listener_events, dom_insert_L.
  apply not_elem_of_dom in Hn. set_solver.
Qed.

Lemma remove_event_listener_enlarges_table_witness :
  _events (new Label []) !! "hover" = None
  ∧ dom (_events (new Label []))
    ⊂ dom (_events (remove_event_listener "hover" (new Label [])).2).
Proof.
  split; [reflexivity|].
  apply remove_event_listener_enlarges_table. reflexivity.
Defined.

(** After such a failed removal the name is accepted by
    add_event_listener, although the class never supported it. *)
Lemma add_event_listener_after_failed_removal :
  let cb : Callable := function {| __name__ := "on_hover"; co_argcount := 1 |} in
  let w := new Label [] in
  ¬ supported Label "hover"
  ∧ (add_event_listener "hover" cb w).1 = Raised GooeyPieError
  ∧ (remove_event_listener "hover" w).1 = Raised ValueError
  ∧ (add_event_listener "hover" cb (remove_event_listener "hover" w).2).1
    = Returned tt.
Proof.
  split; [|repeat split; reflexivity].
  intros [l Hl]. vm_compute in Hl. discriminate.
Qed.

(** ** What a method preserves *)

Section Preserves.

Context (P : Widget → Prop).

Lemma preserves_mret {A} (a : A) : preserves P (mret a).
Proof. intros w H. exact H. Qed.

Lemma preserves_raise {A} e : preserves P (raise e : Py A).
Proof. intros w H. exact H. Qed.

Lemma preserves_modify f : (∀ w, P w → P (f w)) → preserves P (modify f).
Proof. intros Hf w H. apply Hf, H. Qed.

Lemma preserves_bind {A B} (m : Py A) (f : A → Py B) :
  preserves P m → (∀ a, preserves P (f a)) → preserves P (m ≫= f).
Proof.
  intros Hm Hf w H. specialize (Hm w H). unfold mbind, Py_bind.
  destruct (m w) as [[a|e] w']; simpl in *; [apply Hf, Hm | exact Hm].
Qed.

Lemma preserves_get {B} (f : Widget → Py B) :
  (∀ w, preserves P (f w)) → preserves P (get ≫= f).
Proof. intros Hf w H. apply (Hf w w H). Qed.

Lemma preserves_when (b : bool) m :
  (b = true → preserves P m) → preserves P (when b m).
Proof. destruct b; intros H; [apply H; reflexivity | apply preserves_mret]. Qed.

Lemma preserves_try_except {A} (body handler : Py A) cls :
  preserves P body → preserves P handler →
  preserves P (try_except body cls handler).
Proof.
  intros Hb Hh w H. specialize (Hb w H). unfold try_except.
  destruct (body w) as [[a|e] w']; simpl in *; [exact Hb|].
  destruct (decide (e = cls)); [apply Hh, Hb | exact Hb].
Qed.

Lemma preserves_subscript {V} (entry : option V) : preserves P (subscript entry).
Proof. destruct entry; [apply preserves_mret | apply preserves_raise]. Qed.

Lemma preserves_attribute {V} (a : option V) : preserves P (attribute a).
Proof. destruct a; [apply preserves_mret | apply preserves_raise]. Qed.

Lemma preserves_lift {A} (o : Outcome A) : preserves P (lift o).
Proof. intros w H. exact H. Qed.

Lemma preserves___str__ : preserves P __str__.
Proof. intros w H. unfold __str__. py_unfold. destruct (kind w); exact H. Qed.

End Preserves.

(** *** Methods that leave the toolkit wiring alone *)

Lemma _event_same_wiring w0 name tk_event :
  preserves (same_wiring w0) (_event name tk_event).
Proof.
  unfold _event. apply preserves_try_except; [|apply preserves_raise].
  apply preserves_bind; [apply preserves_lift|]. intros ev.
  apply preserves_get. intros w.
  apply preserves_bind; [apply preserves_subscript|]. intros [cb|].
  - unfold call_callback. destruct (accepts_one_argument cb);
      [apply preserves_modify; intros w' H; exact H | apply preserves_raise].
  - apply preserves_raise.
Qed.

Lemma _slider_change_event_same_wiring w0 name :
  preserves (same_wiring w0) (_slider_change_event name).
Proof.
  unfold _slider_change_event. apply preserves_get. intros w.
  apply preserves_bind; [apply preserves_attribute|]. intros value.
  apply preserves_bind; [apply preserves_attribute|]. intros previous.
  destruct (decide (value ≠ previous)); [|apply preserves_mret].
  apply preserves_bind; [|intros _; apply _event_same_wiring].
  apply preserves_modify. intros w' H. exact H.
Qed.

Lemma call_same_wiring w0 h a : preserves (same_wiring w0) (call h a).
Proof.
  destruct h, a; simpl;
    first [ apply _event_same_wiring | apply _slider_change_event_same_wiring
          | apply preserves_raise | apply preserves_mret ].
Qed.

Lemma call_all_same_wiring w0 hs a w :
  same_wiring w0 w → same_wiring w0 (call_all hs a w).
Proof.
  revert w. induction hs as [|h rest IH]; intros w H; simpl; [exact H|].
  apply IH, call_same_wiring, H.
Qed.

Lemma fire_same_wiring n w : same_wiring w (fire n w).
Proof.
  unfold fire. apply call_all_same_wiring.
  destruct n; try destruct (is_Slider (kind w)); try destruct (is_Input (kind w));
    repeat split.
Qed.

(** A native trigger never touches the registration table. *)
Lemma fire_events n w : _events (fire n w) = _events w.
Proof. apply fire_same_wiring. Qed.

(** ** The wiring invariant *)

Lemma wired_same_wiring w0 w : same_wiring w0 w → wired w0 → wired w.
Proof.
  intros (Hk & _ & Hb & Hc & Ht & Hr) [].
  split; rewrite ?Hk, ?Hb, ?Hc, ?Ht, ?Hr; assumption.
Qed.

Lemma wired_with_events f w : wired w → wired (with_events f w).
Proof. intros []. split; assumption. Qed.

(** The sequences of the static table are not the virtual ones. *)
Lemma tk_sequence_of_not_virtual name sequence :
  tk_sequence_of name = Some sequence →
  sequence ≠ "<<ListboxSelect>>" ∧ sequence ≠ "<<ComboboxSelected>>"
  ∧ sequence ≠ "<<Modified>>".
Proof.
  unfold tk_sequence_of, _tk_event_mappings. simpl. intros H.
  repeat case_decide; simplify_eq; repeat split; discriminate.
Qed.

Lemma wired_new k choices : wired (new k choices).
Proof.
  split; simpl.
  - intros h H. destruct k; simpl in H; vm_compute in H; discriminate.
  - intros h H. destruct k; simpl in H; vm_compute in H; discriminate.
  - intros h H. destruct k; simpl in H; vm_compute in H; discriminate.
  - intros h H. discriminate.
  - constructor.
  - destruct (is_RadiogroupBase k); [|constructor].
    apply Forall_fmap, Forall_true. intros c h H. discriminate.
Qed.

Lemma bind_wired sequence h :
  (sequence = "<<ListboxSelect>>" → h = partial_event "select") →
  (sequence = "<<ComboboxSelected>>" → h = partial_event "select") →
  (sequence = "<<Modified>>" → h = partial_event "change") →
  preserves wired (bind sequence h).
Proof.
  intros H1 H2 H3. apply preserves_modify. intros w [].
  split; simpl; try assumption; intros h'; rewrite lookup_insert;
    case_decide; intros Hl; simplify_eq; auto.
Qed.

Lemma unbind_wired sequence : preserves wired (unbind sequence).
Proof.
  apply preserves_modify. intros w [].
  split; simpl; try assumption; intros h'; rewrite lookup_delete;
    case_decide; intros Hl; simplify_eq; auto.
Qed.

Lemma configure_command_wired c : preserves wired (configure_command c).
Proof.
  intros w Hw. unfold configure_command. py_unfold.
  destruct (has_command_option (kind w)) eqn:Hopt; simpl; [|exact Hw].
  destruct Hw. split; simpl; auto.
Qed.

Lemma add_event_listener_wired name cb : preserves wired (add_event_listener name cb).
Proof.
  unfold add_event_listener. apply preserves_get. intros w0.
  destruct (decide (_events w0 !! name = None)).
  { apply preserves_bind; [apply preserves___str__ | intros; apply preserves_raise]. }
  apply preserves_bind; [apply preserves_attribute|]. intros argcount.
  destruct (decide (argcount ≠ 1%nat)); [apply preserves_raise|].
  repeat (apply preserves_bind; [|intros _]).
  - apply preserves_modify. intros w. apply wired_with_events.
  - destruct (tk_sequence_of name) as [sequence|] eqn:Hseq; [|apply preserves_mret].
    destruct (tk_sequence_of_not_virtual _ _ Hseq) as (? & ? & ?).
    apply bind_wired; congruence.
  - apply preserves_when. intros ->%bool_decide_eq_true.
    repeat (apply preserves_bind; [|intros _]); apply preserves_when; intros _.
    + apply preserves_modify. intros w []. split; simpl; try assumption.
      apply Forall_fmap, Forall_true. intros c h [= <-]. reflexivity.
    + apply configure_command_wired.
    + apply configure_command_wired.
    + apply preserves_modify. intros w []. split; simpl; try assumption.
      constructor; [reflexivity | assumption].
    + apply bind_wired; intros; congruence.
  - apply preserves_when. intros _. apply configure_command_wired.
  - apply preserves_when. intros ->%bool_decide_eq_true.
    destruct (is_Listbox (kind w0)); [apply bind_wired; intros; congruence|].
    destruct (is_Dropdown (kind w0)); [apply bind_wired; intros; congruence|].
    apply preserves_mret.
Qed.

Lemma remove_event_listener_wired name : preserves wired (remove_event_listener name).
Proof.
  unfold remove_event_listener. apply preserves_try_except.
  - apply preserves_bind.
    + apply preserves_modify. intros w. apply wired_with_events.
    + intros _. destruct (decide (name ∈ ["change"; "press"])).
      * apply configure_command_wired.
      * apply preserves_bind; [apply preserves_subscript|].
        intros sequence. apply unbind_wired.
  - apply preserves_bind; [apply preserves___str__ | intros; apply preserves_raise].
Qed.

(** Every reachable widget is wired as add_event_listener left it. *)
Lemma reachable_wired w : reachable w → wired w.
Proof.
  induction 1 as [k choices | w w' _ IH Hstep].
  - apply wired_new.
  - destruct Hstep as [name cb w | name w | n w].
    + apply add_event_listener_wired, IH.
    + apply remove_event_listener_wired, IH.
    + exact (wired_same_wiring _ _ (fire_same_wiring n w) IH).
Qed.

(** ** Removal followed by a native trigger *)

(** A dispatcher for a name without a callback calls nothing. *)
Lemma call_no_callback w name h a :
  (∀ cb, _events w !! name ≠ Some (Some cb)) →
  h = partial_event name ∨ h = partial_text_change_event name →
  (call h a w).2 = w.
Proof.
  intros Hno [->| ->]; destruct a; simpl; unfold _text_change_event;
    first [apply _event_no_callback, Hno | reflexivity].
Qed.

Lemma call_all_no_callback w name hs a :
  (∀ cb, _events w !! name ≠ Some (Some cb)) →
  Forall (λ h, h = partial_event name ∨ h = partial_text_change_event name) hs →
  call_all hs a w = w.
Proof.
  intros Hno Hhs. induction Hhs as [|h rest Hh _ IH]; simpl; [reflexivity|].
  rewrite (call_no_callback w name h a Hno Hh). exact IH.
Qed.

Lemma removed_no_callback name w cb :
  _events (remove_event_listener name w).2 !! name ≠ Some (Some cb).
Proof.
  rewrite remove_event_listener_events, lookup_insert_eq. discriminate.
Qed.

Lemma is_trigger_of_inv k name n :
  is_trigger_of k name n = true →
  match n with
  | tk_sequence sequence _ =>
      tk_sequence_of name = Some sequence
      ∨ (name = "change" ∧ is_Textbox k = true ∧ sequence = "<<Modified>>")
      ∨ (name = "select" ∧ is_Listbox k = true ∧ sequence = "<<ListboxSelect>>")
      ∨ (name = "select" ∧ is_Dropdown k = true
         ∧ sequence = "<<ComboboxSelected>>")
  | command_invoked =>
      name = "press" ∨ (name = "change" ∧ is_Checkbox_or_Spinbox k = true)
  | scale_moved _ => name = "change" ∧ is_Slider k = true
  | variable_written _ => name = "change" ∧ is_Input k = true
  | radiobutton_invoked _ => name = "change" ∧ is_RadiogroupBase k = true
  end.
Proof.
  destruct n; simpl;
    rewrite ?orb_true_iff, ?andb_true_iff, ?bool_decide_eq_true; tauto.
Qed.

(** The handlers a trigger of [name] runs right after the removal of
    [name] are dispatchers of [name], if any are left. *)
Lemma handlers_after_removal w name n :
  wired w →
  is_trigger_of (kind w) name n = true →
  Forall (λ h, h = partial_event name ∨ h = partial_text_change_event name)
         (handlers n (remove_event_listener name w).2).
Proof.
  intros Hw Htrig. apply is_trigger_of_inv in Htrig.
  destruct (tk_sequence_of name) as [sequence|] eqn:Hseq.
  - (* a name of the static table: the sequence is unbound *)
    destruct (tk_sequence_of_not_special _ _ Hseq) as (Hc & Hp & Hs).
    rewrite (remove_event_listener_table_name _ _ _ Hseq).
    destruct n as [sequence' e| |v|s|i]; simpl in *.
    + destruct Htrig as [[= <-]|[(?&_)|[(?&_)|(?&_)]]]; try congruence.
      rewrite lookup_delete_eq. constructor.
    + destruct Htrig as [?|(?&_)]; congruence.
    + destruct Htrig; congruence.
    + destruct Htrig; congruence.
    + destruct Htrig; congruence.
  - destruct (decide (name ∈ ["change"; "press"])) as [Hin|Hin].
    + (* change or press: the command is cleared where there is one *)
      rewrite (remove_event_listener_command_name _ _ Hin).
      apply command_names_iff in Hin.
      destruct Hw as [_ _ Hmod Hcmd Htr Hrb].
      destruct (has_command_option (kind w)) eqn:Hopt;
        destruct n as [sequence' e| |v|s|i]; simpl in *.
      * destruct Htrig as [?|[(_&Hk&_)|[(?&_)|(?&_)]]];
          [discriminate| |destruct Hin; congruence..].
        destruct (kind w); discriminate.
      * constructor.
      * destruct (is_Slider (kind w)); constructor.
      * destruct Htrig as [_ Hk]. destruct (kind w); discriminate.
      * destruct Htrig as [_ Hk]. destruct (kind w); discriminate.
      * destruct Htrig as [?|[(->&_&->)|[(?&_)|(?&_)]]];
          [discriminate| |destruct Hin; congruence..].
        destruct (bindings w !! "<<Modified>>") as [h|] eqn:Hb; simpl;
          [|constructor].
        constructor; [left; apply Hmod; reflexivity | constructor].
      * destruct (command w) as [h|] eqn:Hcom; [|constructor].
        discriminate (Hcmd h eq_refl).
      * destruct Htrig as [_ Hk]. destruct (kind w); discriminate.
      * destruct Htrig as [-> ->]. eapply Forall_impl; [exact Htr|].
        intros h ->. right. reflexivity.
      * destruct Htrig as [-> _].
        destruct (radiobuttons w !! i) as [[h|]|] eqn:Hi; simpl; try constructor;
          [|constructor].
        left. apply (proj1 (Forall_lookup _ _) Hrb i (Some h) Hi h eq_refl).
    + (* any other name: only select on a Listbox or Dropdown has a trigger *)
      rewrite (remove_event_listener_other_name _ _ Hin Hseq). simpl.
      rewrite command_names_iff in Hin.
      destruct Hw as [Hlb Hcb _ _ _ _].
      destruct n as [sequence' e| |v|s|i]; simpl in *;
        [|exfalso; tauto..].
      destruct Htrig as [?|[(?&_)|[(->&_&->)|(->&_&->)]]];
        [discriminate|exfalso; tauto|..].
      * destruct (bindings w !! "<<ListboxSelect>>") as [h|] eqn:Hb; simpl;
          [|constructor].
        constructor; [left; apply Hlb; reflexivity | constructor].
      * destruct (bindings w !! "<<ComboboxSelected>>") as [h|] eqn:Hb; simpl;
          [|constructor].
        constructor; [left; apply Hcb; reflexivity | constructor].
Qed.

(** C7: for every widget reached from a constructor and every event name,
    after remove_event_listener of the name (whether it returned or
    raised) an immediately following native trigger of that name calls no
    user callback: the log of calls is the one before the removal. *)
Theorem remove_then_trigger_invokes_nothing w name n :
  reachable w →
  is_trigger_of (kind w) name n = true →
  invoked (fire n (remove_event_listener name w).2) = invoked w.
Proof.
  intros Hreach Htrig.
  pose proof (handlers_after_removal w name n (reachable_wired w Hreach) Htrig) as Hhs.
  set (w' := (remove_event_listener name w).2) in *.
  assert (invoked w' = invoked w) as Hinv.
  { subst w'. unfold remove_event_listener. py_unfold. simpl.
    destruct (decide (name ∈ ["change"; "press"])); simpl.
    - destruct (has_command_option (kind w)); reflexivity.
    - destruct (tk_sequence_of name); simpl; [reflexivity|].
      destruct (kind w); reflexivity. }
  rewrite <- Hinv. unfold fire.
  set (written := match n with
                  | scale_moved _ | variable_written _ => _
                  | _ => w'
                  end).
  assert (_events written = _events w' ∧ invoked written = invoked w')
    as [Hev Hlog].
  { subst written. destruct n; try destruct (is_Slider (kind w'));
      try destruct (is_Input (kind w')); split; reflexivity. }
  rewrite (call_all_no_callback written name _ _); [exact Hlog| |exact Hhs].
  intros cb. rewrite Hev. apply removed_no_callback.
Qed.

Lemma remove_then_trigger_invokes_nothing_witness :
  let cb : Callable := function {| __name__ := "on_change"; co_argcount := 1 |} in
  let w := (add_event_listener "change" cb (new Input [])).2 in
  reachable w
  ∧ is_trigger_of (kind w) "change" (variable_written "abc") = true
  ∧ invoked (fire (variable_written "abc") (remove_event_listener "change" w).2)
    = invoked w.
Proof.
  intros cb w.
  assert (Hreach : reachable w).
  { eapply reachable_step; [apply (reachable_new Input [])|]. apply step_add. }
  split; [exact Hreach|]. split; [reflexivity|].
  exact (remove_then_trigger_invokes_nothing w "change" (variable_written "abc")
           Hreach eq_refl).
Defined.

(** ** The change event of sliders and inputs *)

(** The slider's filter: equal to the previous value, nothing happens;
    different, the previous value is updated and the event dispatched
    once. *)
Lemma _slider_change_event_filter w name value previous :
  _value w = Some value →
  _previous_value w = Some previous →
  _slider_change_event name w
  = if decide (value = previous) then (Returned tt, w)
    else _event name None (with_previous_value (Some value) w).
Proof.
  intros Hv Hp. unfold _slider_change_event. py_unfold.
  rewrite Hv, Hp. simpl.
  destruct (decide (value = previous)) as [->|Hne].
  - rewrite decide_False by tauto. reflexivity.
  - rewrite decide_True by assumption. reflexivity.
Qed.


(** * Properties of the property facade *)

(** ** Input.secret *)

(** The getter runs out of frames whatever it is given. *)
Lemma secret_raises frames e :
  InputFacade.secret frames e = Raised RecursionError.
Proof.
  induction frames as [|frames IH]; [reflexivity | exact IH].
Qed.

(** C8: reading the [secret] property of an Input is self-referential: the
    getter evaluates the property again, so each call reduces to a further
    call and, whatever the masking state and however many frames the
    interpreter allows, it never returns a value: it ends in
    RecursionError. *)
Theorem secret_getter_never_returns frames e :
  InputFacade.secret (S frames) e = InputFacade.secret frames e
  ∧ InputFacade.secret frames e = Raised RecursionError.
Proof.
  split; [reflexivity | apply secret_raises].
Qed.

(** The setter works and does not help the getter. *)
Lemma secret_setter_then_getter frames value e :
  InputFacade.show (InputFacade.secret_setter value e)
  = (if value then "●" else "")
  ∧ InputFacade.secret frames (InputFacade.secret_setter value e)
    = Raised RecursionError.
Proof.
  split; [destruct value; reflexivity | apply secret_raises].
Qed.

(** ** Enumerated setters *)

Lemma index_Returned t value i :
  index t value = Returned i → t !! i = Some value.
Proof.
  revert i. induction t as [|item rest IH]; intros i; simpl; [discriminate|].
  destruct (decide (item = value)) as [->|Hne].
  - intros [= <-]. reflexivity.
  - destruct (index rest value) as [j|e]; [|discriminate].
    intros [= <-]. simpl. apply IH. reflexivity.
Qed.

Lemma index_Raised t value e :
  index t value = Raised e → e = ValueError ∧ value ∉ t.
Proof.
  induction t as [|item rest IH]; simpl.
  - intros [= <-]. split; [reflexivity | apply not_elem_of_nil].
  - destruct (decide (item = value)) as [->|Hne]; [discriminate|].
    destruct (index rest value) as [j|e'] eqn:Hrest; [discriminate|].
    intros [= <-]. destruct (IH eq_refl) as [-> Hnot].
    split; [reflexivity|]. apply not_elem_of_cons. split; [congruence | exact Hnot].
Qed.

(** [index] succeeds exactly on the members. *)
Lemma index_elem_of t value :
  value ∈ t ↔ ∃ i, index t value = Returned i.
Proof.
  split.
  - intros Hin. destruct (index t value) as [i|e] eqn:H; [eauto|].
    apply index_Raised in H as [_ Hnot]. contradiction.
  - intros [i H]. apply index_Returned in H.
    apply list_elem_of_lookup. eauto.
Qed.

Section Setters.

Import StyleLabelFacade.

Variable actual : FontOption → FontDict.

Lemma font_weight_setter_spec value s :
  font_weight_setter actual value s
  = if decide (value = "bold" ∨ value = "normal")
    then (Returned tt,
          {| style_font :=
               font_string (family (actual (style_font s)))
                 (size (actual (style_font s)))
                 (String.concat " "
                    (font_options
                       (setitem (actual (style_font s)) "weight" (PyStr value)))) |})
    else (Raised ValueError, s).
Proof.
  unfold font_weight_setter. simpl.
  destruct (decide ("bold" = value)) as [<-|Hb].
  { rewrite decide_True by tauto. reflexivity. }
  destruct (decide ("normal" = value)) as [<-|Hn].
  { rewrite decide_True by tauto. reflexivity. }
  rewrite decide_False by (intros [?|?]; congruence). reflexivity.
Qed.

Lemma font_style_setter_spec value s :
  font_style_setter actual value s
  = if decide (value = "italic" ∨ value = "normal")
    then (Returned tt, _set_font_property actual "slant" (PyStr value) s)
    else (Raised ValueError, s).
Proof.
  unfold font_style_setter. simpl.
  destruct (decide ("italic" = value)) as [<-|Hb].
  { rewrite decide_True by tauto. reflexivity. }
  destruct (decide ("normal" = value)) as [<-|Hn].
  { rewrite decide_True by tauto. reflexivity. }
  rewrite decide_False by (intros [?|?]; congruence). reflexivity.
Qed.

Lemma underline_setter_spec value s :
  underline_setter actual value s
  = if decide (value = "normal")
    then (Returned tt, _set_font_property actual "underline" (PyInt 0) s)
    else if decide (value = "underline")
    then (Returned tt, _set_font_property actual "underline" (PyInt 1) s)
    else (Raised ValueError, s).
Proof.
  unfold underline_setter. simpl.
  destruct (decide ("normal" = value)) as [<-|Hb].
  { rewrite decide_True by reflexivity. reflexivity. }
  rewrite (decide_False (P := value = "normal")) by congruence.
  destruct (decide ("underline" = value)) as [<-|Hn].
  { rewrite decide_True by reflexivity. reflexivity. }
  rewrite (decide_False (P := value = "underline")) by congruence. reflexivity.
Qed.

Lemma strikethrough_setter_spec value s :
  strikethrough_setter actual value s
  = if decide (value = "normal")
    then (Returned tt, _set_font_property actual "overstrike" (PyInt 0) s)
    else if decide (value = "strikethrough")
    then (Returned tt, _set_font_property actual "overstrike" (PyInt 1) s)
    else (Raised ValueError, s).
Proof.
  unfold strikethrough_setter. simpl.
  destruct (decide ("normal" = value)) as [<-|Hb].
  { rewrite decide_True by reflexivity. reflexivity. }
  rewrite (decide_False (P := value = "normal")) by congruence.
  destruct (decide ("strikethrough" = value)) as [<-|Hn].
  { rewrite decide_True by reflexivity. reflexivity. }
  rewrite (decide_False (P := value = "strikethrough")) by congruence. reflexivity.
Qed.

(** The word "bold" is among the options handed to the style exactly when
    the weight set is "bold", whatever the font was. *)
Lemma font_weight_translation value s :
  value = "bold" ∨ value = "normal" →
  "bold" ∈ font_options (setitem (actual (style_font s)) "weight" (PyStr value))
  ↔ value = "bold".
Proof.
  intros Hv. unfold font_options, setitem. simpl.
  rewrite !elem_of_app.
  split.
  - intros [H|[H|[H|H]]]; repeat case_decide; simplify_eq;
      try (apply elem_of_nil in H; contradiction);
      try (apply list_elem_of_singleton in H; discriminate).
    reflexivity.
  - intros ->. left. rewrite decide_True by reflexivity. apply list_elem_of_here.
Qed.

End Setters.

Lemma selected_setter_spec value (d : DropdownFacade.Combobox) :
  DropdownFacade.selected_setter value d
  = if decide (value ∈ DropdownFacade.values d)
    then (Returned tt, DropdownFacade.set value d)
    else (Raised ValueError, d).
Proof.
  unfold DropdownFacade.selected_setter.
  destruct (index (DropdownFacade.values d) value) as [i|e] eqn:H.
  - rewrite decide_True; [reflexivity|]. apply index_elem_of. eauto.
  - apply index_Raised in H as [_ Hnot]. rewrite decide_False by assumption.
    reflexivity.
Qed.

(** A choice that was set is the one read back. *)
Lemma selected_after_setter value (d : DropdownFacade.Combobox) :
  value ∈ DropdownFacade.values d →
  DropdownFacade.selected (DropdownFacade.selected_setter value d).2 = Some value.
Proof.
  intros Hin. rewrite selected_setter_spec, decide_True by assumption. simpl.
  apply index_elem_of in Hin as [i Hi].
  unfold DropdownFacade.selected, DropdownFacade.current. simpl. rewrite Hi.
  rewrite decide_False by lia. rewrite Nat2Z.id.
  apply index_Returned, Hi.
Qed.

(** C9 (as stated it fails for the radio groups): the choices of a radio
    group are an enumeration, and the setter of [selected] stores a value
    that is none of them without any error; the getter then returns
    it. *)
Lemma radiogroup_selected_accepts_any_value :
  let g := RadiogroupFacade.__init__ ["yes"; "no"] in
  ("maybe" ∉ RadiogroupFacade.options g)
  ∧ (RadiogroupFacade.selected_setter "maybe" g).1 = Returned tt
  ∧ RadiogroupFacade.selected (RadiogroupFacade.selected_setter "maybe" g).2
    = Some "maybe".
Proof.
  intros g. split; [|split; reflexivity].
  intros H. repeat (apply elem_of_cons in H as [H|H]; [discriminate H|]).
  apply elem_of_nil in H. exact H.
Qed.

(** C9, amended.  The setters of font_weight, font_style, underline and
    strikethrough of a StyleLabel and of Dropdown.selected accept exactly
    the values of their enumeration and raise ValueError from the call
    itself, leaving the widget as it was, on any other.  On an accepted
    value the outcome is a function of the value and the widget alone:
    the style's font becomes the list of the current font's family, its
    size and the option words "bold", "italic", "underline" and
    "overstrike", in this order and joined by spaces, where the word of
    the property being set is present exactly when the value asks for it
    ("bold", "italic", "underline", "strikethrough") and each of the other
    three is present exactly when the current font has it; the dropdown
    shows the value and keeps its choices.  The setter of
    RadiogroupBase.selected validates nothing: it returns for every value
    and stores it. *)
Theorem enumerated_setters_translate
  (actual : StyleLabelFacade.FontOption → StyleLabelFacade.FontDict) :
  let current s := actual (StyleLabelFacade.style_font s) in
  let bold s : list string :=
    if decide (StyleLabelFacade.weight (current s) = PyStr "bold")
    then ["bold"] else [] in
  let italic s : list string :=
    if decide (StyleLabelFacade.slant (current s) = PyStr "italic")
    then ["italic"] else [] in
  let underlined s : list string :=
    if decide (StyleLabelFacade.underline (current s) = PyInt 1)
    then ["underline"] else [] in
  let struck s : list string :=
    if decide (StyleLabelFacade.overstrike (current s) = PyInt 1)
    then ["overstrike"] else [] in
  let styled s (words : list string) :=
    {| StyleLabelFacade.style_font :=
         StyleLabelFacade.font_string
           (StyleLabelFacade.family (current s))
           (StyleLabelFacade.size (current s))
           (String.concat " " words) |} in
  (∀ value s,
     StyleLabelFacade.font_weight_setter actual value s
     = if decide (value = "bold" ∨ value = "normal")
       then (Returned tt,
             styled s ((if decide (value = "bold") then ["bold"] else [])
                       ++ italic s ++ underlined s ++ struck s)%list)
       else (Raised ValueError, s))
  ∧ (∀ value s,
       StyleLabelFacade.font_style_setter actual value s
       = if decide (value = "italic" ∨ value = "normal")
         then (Returned tt,
               styled s (bold s
                         ++ (if decide (value = "italic") then ["italic"] else [])
                         ++ underlined s ++ struck s)%list)
         else (Raised ValueError, s))
  ∧ (∀ value s,
       StyleLabelFacade.underline_setter actual value s
       = if decide (value = "normal" ∨ value = "underline")
         then (Returned tt,
               styled s (bold s ++ italic s
                         ++ (if decide (value = "underline")
                             then ["underline"] else [])
                         ++ struck s)%list)
         else (Raised ValueError, s))
  ∧ (∀ value s,
       StyleLabelFacade.strikethrough_setter actual value s
       = if decide (value = "normal" ∨ value = "strikethrough")
         then (Returned tt,
               styled s (bold s ++ italic s ++ underlined s
                         ++ (if decide (value = "strikethrough")
                             then ["overstrike"] else []))%list)
         else (Raised ValueError, s))
  ∧ (∀ value d,
       DropdownFacade.selected_setter value d
       = if decide (value ∈ DropdownFacade.values d)
         then (Returned tt,
               {| DropdownFacade.values := DropdownFacade.values d;
                  DropdownFacade.text := value |})
         else (Raised ValueError, d))
  ∧ (∀ value g,
       RadiogroupFacade.selected_setter value g
       = (Returned tt,
          {| RadiogroupFacade.options := RadiogroupFacade.options g;
             RadiogroupFacade._selected := value |})).
Proof.
  intros current bold italic underlined struck styled.
  subst current bold italic underlined struck styled. cbv beta.
  split; [|split; [|split; [|split; [|split]]]].
  - intros value s. rewrite font_weight_setter_spec.
    destruct (decide (value = "bold" ∨ value = "normal")) as [[->| ->]|Hno];
      reflexivity.
  - intros value s. rewrite font_style_setter_spec.
    destruct (decide (value = "italic" ∨ value = "normal")) as [[->| ->]|Hno];
      reflexivity.
  - intros value s. rewrite underline_setter_spec.
    destruct (decide (value = "normal" ∨ value = "underline")) as [[->| ->]|Hno].
    + reflexivity.
    + reflexivity.
    + rewrite !decide_False by tauto. reflexivity.
  - intros value s. rewrite strikethrough_setter_spec.
    destruct (decide (value = "normal" ∨ value = "strikethrough"))
      as [[->| ->]|Hno].
    + reflexivity.
    + reflexivity.
    + rewrite !decide_False by tauto. reflexivity.
  - intros value d. apply selected_setter_spec.
  - reflexivity.
Qed.

(** ** The selection of a listbox *)

Lemma getitems_lookup (lb : ListboxFacade.Lines) select lines :
  Forall2 (λ i line, ListboxFacade.items lb !! i = Some line) select lines →
  ListboxFacade.getitems lb select = Returned lines.
Proof.
  induction 1 as [|i line select lines Hi _ IH]; simpl; [reflexivity|].
  unfold ListboxFacade.getitem. rewrite Hi, IH. reflexivity.
Qed.

(** Every selected index within the lines has its line. *)
Lemma selected_lines_exist (lb : ListboxFacade.Lines) select :
  Forall (λ i, (i < length (ListboxFacade.items lb))%nat) select →
  ∃ lines,
    Forall2 (λ i line, ListboxFacade.items lb !! i = Some line) select lines.
Proof.
  induction 1 as [|i select Hi _ [lines IH]].
  - exists []. constructor.
  - destruct (lookup_lt_is_Some_2 _ _ Hi) as [line Hline].
    exists (line :: lines). constructor; assumption.
Qed.

(** C10: the selection accessors of a Listbox return one of three shapes.
    [selected_index] is None when no line is selected, the index itself
    when exactly one is, and the collection of indices when several are;
    [selected] is None, the one selected line, or the list of the selected
    lines, in the order of the indices. *)
Theorem listbox_selection_shapes (lb : ListboxFacade.Lines) :
  (ListboxFacade.curselection lb = [] →
     ListboxFacade.selected_index lb = ListboxFacade.Nothing
     ∧ ListboxFacade.selected lb = Returned ListboxFacade.Nothing)
  ∧ (∀ i line,
       ListboxFacade.curselection lb = [i] →
       ListboxFacade.items lb !! i = Some line →
       ListboxFacade.selected_index lb = ListboxFacade.Single i
       ∧ ListboxFacade.selected lb = Returned (ListboxFacade.Single line))
  ∧ (∀ lines,
       (2 ≤ length (ListboxFacade.curselection lb))%nat →
       Forall2 (λ i line, ListboxFacade.items lb !! i = Some line)
               (ListboxFacade.curselection lb) lines →
       ListboxFacade.selected_index lb
       = ListboxFacade.Several (ListboxFacade.curselection lb)
       ∧ ListboxFacade.selected lb = Returned (ListboxFacade.Several lines)).
Proof.
  unfold ListboxFacade.selected_index, ListboxFacade.selected.
  split; [|split].
  - intros ->. split; reflexivity.
  - intros i line -> Hline. unfold ListboxFacade.getitem. rewrite Hline.
    split; reflexivity.
  - intros lines Hlen Hlines. apply getitems_lookup in Hlines.
    destruct (ListboxFacade.curselection lb) as [|i [|j rest]];
      simpl in Hlen; try lia.
    rewrite Hlines. split; reflexivity.
Qed.

Lemma listbox_selection_shapes_witness :
  let none := {| ListboxFacade.items := ["red"; "green"; "blue"];
                 ListboxFacade.curselection := [] |} in
  let one := {| ListboxFacade.items := ["red"; "green"; "blue"];
                ListboxFacade.curselection := [1%nat] |} in
  let two := {| ListboxFacade.items := ["red"; "green"; "blue"];
                ListboxFacade.curselection := [0%nat; 2%nat] |} in
  (ListboxFacade.selected_index none = ListboxFacade.Nothing
   ∧ ListboxFacade.selected none = Returned ListboxFacade.Nothing)
  ∧ (ListboxFacade.selected_index one = ListboxFacade.Single 1%nat
     ∧ ListboxFacade.selected one = Returned (ListboxFacade.Single "green"))
  ∧ (ListboxFacade.selected_index two = ListboxFacade.Several [0%nat; 2%nat]
     ∧ ListboxFacade.selected two
       = Returned (ListboxFacade.Several ["red"; "blue"])).
Proof.
  intros none one two. split; [|split].
  - apply (proj1 (listbox_selection_shapes none)). reflexivity.
  - apply (proj1 (proj2 (listbox_selection_shapes one)) 1%nat "green");
      reflexivity.
  - apply (proj2 (proj2 (listbox_selection_shapes two)) ["red"; "blue"]).
    + simpl. lia.
    + repeat constructor.
Defined.

(** * Further properties of the mixin *)

(** ** What registration and removal leave alone *)

Section Frame.

Variable P : Widget → Prop.
Hypothesis P_events : ∀ f w, P w → P (with_events f w).
Hypothesis P_bindings : ∀ f w, P w → P (with_bindings f w).
Hypothesis P_command : ∀ c w, P w → P (with_command c w).
Hypothesis P_traces : ∀ t w, P w → P (with_traces t w).
Hypothesis P_radiobuttons : ∀ r w, P w → P (with_radiobuttons r w).

Lemma configure_command_frame c : preserves P (configure_command c).
Proof.
  intros w H. unfold configure_command. py_unfold.
  destruct (has_command_option (kind w)); simpl; auto.
Qed.

Lemma add_event_listener_frame name cb : preserves P (add_event_listener name cb).
Proof.
  unfold add_event_listener. apply preserves_get. intros w0.
  destruct (decide (_events w0 !! name = None)).
  { apply preserves_bind; [apply preserves___str__ | intros; apply preserves_raise]. }
  apply preserves_bind; [apply preserves_attribute|]. intros argcount.
  destruct (decide (argcount ≠ 1%nat)); [apply preserves_raise|].
  repeat (apply preserves_bind; [|intros _]).
  - apply preserves_modify. auto.
  - destruct (tk_sequence_of name); [|apply preserves_mret].
    apply preserves_modify. auto.
  - apply preserves_when. intros _.
    repeat (apply preserves_bind; [|intros _]); apply preserves_when; intros _;
      first [apply configure_command_frame | apply preserves_modify; auto].
  - apply preserves_when. intros _. apply configure_command_frame.
  - apply preserves_when. intros _.
    destruct (is_Listbox (kind w0)); [apply preserves_modify; auto|].
    destruct (is_Dropdown (kind w0)); [apply preserves_modify; auto|].
    apply preserves_mret.
Qed.

Lemma remove_event_listener_frame name : preserves P (remove_event_listener name).
Proof.
  unfold remove_event_listener. apply preserves_try_except.
  - apply preserves_bind; [apply preserves_modify; auto|].
    intros _. destruct (decide (name ∈ ["change"; "press"])).
    + apply configure_command_frame.
    + apply preserves_bind; [apply preserves_subscript|].
      intros sequence. apply preserves_modify. auto.
  - apply preserves_bind; [apply preserves___str__ | intros; apply preserves_raise].
Qed.

End Frame.

Lemma add_event_listener_same_data name cb w :
  same_data w (add_event_listener name cb w).2.
Proof.
  apply (add_event_listener_frame (same_data w)); try (intros ? ? H; exact H).
  repeat split.
Qed.

Lemma remove_event_listener_same_data name w :
  same_data w (remove_event_listener name w).2.
Proof.
  apply (remove_event_listener_frame (same_data w)); try (intros ? ? H; exact H).
  repeat split.
Qed.

Lemma step_kind w w' : step w w' → kind w' = kind w.
Proof.
  intros [name cb w0 | name w0 | n w0].
  - apply add_event_listener_same_data.
  - apply remove_event_listener_same_data.
  - apply fire_same_wiring.
Qed.

(** A step never removes a key of the table. *)
Lemma step_keys w w' name :
  step w w' → is_Some (_events w !! name) → is_Some (_events w' !! name).
Proof.
  intros [name' cb w0 | name' w0 | n w0] Hin.
  - destruct (add_event_listener_events name' cb w0) as [->|[_ ->]]; [exact Hin|].
    rewrite lookup_insert. case_decide; [eauto | exact Hin].
  - rewrite remove_event_listener_events, lookup_insert.
    case_decide; [eauto | exact Hin].
  - rewrite fire_events. exact Hin.
Qed.

Lemma reachable_keeps_supported w : reachable w → keeps_supported w.
Proof.
  induction 1 as [k choices | w w' _ IH Hstep].
  - intros name Hsup. exact Hsup.
  - intros name Hsup. rewrite (step_kind _ _ Hstep) in Hsup.
    exact (step_keys _ _ _ Hstep (IH name Hsup)).
Qed.

(** ** Registration on a reachable widget *)

(** X1: on every widget reached from a constructor by registrations,
    removals and native triggers, add_event_listener of a name the class
    supports with a callable whose code object counts exactly one argument
    ([__code__.co_argcount] is 1) returns normally and stores the
    callable: no earlier call, failed or not, can make a supported name
    invalid. *)
Theorem supported_registration_succeeds w name (cb : Callable) :
  reachable w →
  supported (kind w) name →
  code_argcount cb = Some 1%nat →
  (add_event_listener name cb w).1 = Returned tt
  ∧ _events (add_event_listener name cb w).2 !! name = Some (Some cb).
Proof.
  intros Hreach Hsup Harity.
  pose proof (reachable_keeps_supported w Hreach name Hsup) as Hin.
  destruct (add_event_listener_registers w name cb Hsup Hin Harity)
    as (Hret & Hev & _).
  split; [exact Hret|]. rewrite Hev. apply lookup_insert_eq.
Qed.

Lemma supported_registration_succeeds_witness :
  let cb : Callable := function {| __name__ := "on_select"; co_argcount := 1 |} in
  let w := (remove_event_listener "select" (new Listbox ["a"; "b"])).2 in
  reachable w
  ∧ supported (kind w) "select"
  ∧ code_argcount cb = Some 1%nat
  ∧ (add_event_listener "select" cb w).1 = Returned tt
  ∧ _events (add_event_listener "select" cb w).2 !! "select" = Some (Some cb).
Proof.
  intros cb w.
  assert (Hreach : reachable w).
  { eapply reachable_step; [apply (reachable_new Listbox ["a"; "b"])|].
    apply step_remove. }
  assert (Hsup : supported (kind w) "select") by (exists None; reflexivity).
  split; [exact Hreach|]. split; [exact Hsup|]. split; [reflexivity|].
  exact (supported_registration_succeeds w "select" cb Hreach Hsup eq_refl).
Defined.

(** C3 (the code departs from it): add_event_listener should reject a
    callback that does not take exactly one argument with GooeyPieError
    and leave the table alone.  What it tests is
    [callback.__code__.co_argcount], which is not the number of arguments
    a call has to pass.  A bound method whose function is declared with
    [self] alone takes no argument, yet its code object counts one: on a
    reachable widget and a supported name it is accepted and stored, and
    the next dispatch of the name raises TypeError when calling it.  A
    callable without a code object (a partial, a builtin, an instance with
    [__call__]) is rejected with AttributeError instead of GooeyPieError,
    whatever it takes; the widget is left as it was.  And a bound method
    over a function of [self] and one more parameter, which does take
    exactly one argument, is rejected with GooeyPieError. *)
Theorem add_event_listener_checks_co_argcount w name (f : Callback) :
  reachable w →
  supported (kind w) name →
  co_argcount f = 1%nat →
  accepts_one_argument (bound_method f) = false
  ∧ (add_event_listener name (bound_method f) w).1 = Returned tt
  ∧ _events (add_event_listener name (bound_method f) w).2
    = <[name := Some (bound_method f)]> (_events w)
  ∧ _event name None (add_event_listener name (bound_method f) w).2
    = (Raised TypeError, (add_event_listener name (bound_method f) w).2)
  ∧ (∀ callable_name binds_one,
       add_event_listener name (other_callable callable_name None binds_one) w
       = (Raised AttributeError, w))
  ∧ (∀ g : Callback,
       co_argcount g = 2%nat →
       accepts_one_argument (bound_method g) = true
       ∧ add_event_listener name (bound_method g) w = (Raised GooeyPieError, w)).
Proof.
  intros Hreach Hsup Harity.
  pose proof (reachable_keeps_supported w Hreach name Hsup) as Hin.
  assert (Hcode : code_argcount (bound_method f) = Some 1%nat)
    by (simpl; rewrite Harity; reflexivity).
  assert (Hno : accepts_one_argument (bound_method f) = false)
    by (simpl; rewrite Harity; reflexivity).
  destruct (add_event_listener_registers w name (bound_method f) Hsup Hin Hcode)
    as (Hret & Hevents & _).
  split; [exact Hno|]. split; [exact Hret|]. split; [exact Hevents|].
  split; [|split].
  - unfold _event. py_unfold. simpl. rewrite Hevents, lookup_insert_eq. simpl.
    rewrite Harity. reflexivity.
  - intros callable_name binds_one.
    rewrite (add_event_listener_rejects w name _ Hin) by discriminate.
    reflexivity.
  - intros g Hg. split; [simpl; rewrite Hg; reflexivity|].
    rewrite (add_event_listener_rejects w name _ Hin)
      by (simpl; rewrite Hg; discriminate).
    reflexivity.
Qed.

Lemma add_event_listener_checks_co_argcount_witness :
  let on_click := bound_method {| __name__ := "on_click"; co_argcount := 1 |} in
  let w := (add_event_listener "press" on_click (new Button [])).2 in
  accepts_one_argument on_click = false
  ∧ _events w !! "press" = Some (Some on_click)
  ∧ invoked (fire command_invoked w) = []
  ∧ _event "press" None w = (Raised TypeError, w).
Proof.
  intros on_click w.
  assert (Hsup : supported (kind (new Button [])) "press")
    by (exists None; reflexivity).
  destruct (add_event_listener_checks_co_argcount (new Button []) "press"
              {| __name__ := "on_click"; co_argcount := 1 |}
              (reachable_new Button []) Hsup eq_refl)
    as (Hno & _ & Hevents & Hdispatch & _).
  split; [exact Hno|].
  split; [unfold w, on_click; rewrite Hevents; apply lookup_insert_eq|].
  split; [vm_compute; reflexivity | exact Hdispatch].
Defined.




Lemma function_accepts (f : Callback) :
  co_argcount f = 1%nat → accepts_one_argument f = true.
Proof. intros H. simpl. apply bool_decide_eq_true_2, H. Qed.



(** ** Registration followed by a native trigger *)

Lemma option_list_singleton {A} (o : option A) (a : A) :
  a ∈ option_list o → option_list o = [a].
Proof.
  destruct o as [b|]; simpl.
  - intros ->%list_elem_of_singleton. reflexivity.
  - intros []%elem_of_nil.
Qed.

Lemma _event_registered_invoked w name tk_event cb ev :
  _events w !! name = Some (Some cb) →
  accepts_one_argument cb = true →
  GooeyPieEvent_init name tk_event = Returned ev →
  invoked (_event name tk_event w).2 = (invoked w ++ [(cb, ev)])%list.
Proof.
  intros Hcb Hacc Hev.
  rewrite (_event_registered w name tk_event cb ev Hcb Hacc Hev).
  reflexivity.
Qed.

(** Registering "change" on an entry adds a trace in front of the ones it
    has. *)
Lemma add_event_listener_change_traces w (cb : Callable) :
  is_Input (kind w) = true →
  is_Some (_events w !! "change") →
  code_argcount cb = Some 1%nat →
  traces (add_event_listener "change" cb w).2
  = partial_text_change_event "change" :: traces w.
Proof.
  intros Hk [l Hl] Harity. py_guards Hl Harity.
  destruct (kind w) eqn:Hkind; simpl in Hk; try discriminate; py_run Hkind;
    reflexivity.
Qed.

(** X3: after add_event_listener of a supported name with a function of
    one parameter, a native trigger of that name calls that callback exactly
    once, with the event [GooeyPieEvent] builds from the trigger's
    payload, and calls nothing else, whatever listener the name had
    before.  For a slider the delivered value must differ from the
    previous one, and for an entry no earlier trace may be left. *)
Theorem registered_callback_called_once w name cb n ev :
  supported (kind w) name →
  is_Some (_events w !! name) →
  co_argcount cb = 1%nat →
  is_trigger_of (kind w) name n = true →
  exists_natively n w →
  (∀ v, n = scale_moved v → ∃ p, _previous_value w = Some p ∧ p ≠ PyInt v) →
  (∀ s, n = variable_written s → traces w = []) →
  GooeyPieEvent_init name (payload_of n) = Returned ev →
  invoked (fire n (add_event_listener name cb w).2)
  = (invoked w ++ [(cb : Callable, ev)])%list.
Proof.
  intros Hsup Hin Harity Htrig Hnat Hslider Hentry Hev.
  pose proof (function_argcount cb Harity) as Hcode.
  pose proof (function_accepts cb Harity) as Hacc.
  destruct (add_event_listener_registers w name cb Hsup Hin Hcode)
    as (_ & Hevents & Hatt).
  destruct (add_event_listener_same_data name cb w) as (Hk & Hval & Hprev & Hlog).
  assert (Hcb : ∀ w'', _events w'' = _events (add_event_listener name cb w).2 →
                       _events w'' !! name = Some (Some (function cb))).
  { intros w'' ->. rewrite Hevents. apply lookup_insert_eq. }
  pose proof (is_trigger_of_inv _ _ _ Htrig) as Hinv.
  remember (add_event_listener name cb w).2 as w' eqn:Hw'.
  assert (Hmem : dispatcher_of name n ∈ handlers n w').
  { apply Hatt; [rewrite Hk; exact Htrig|].
    destruct n; simpl in *; try exact I.
    assert (length (radiobuttons w') = length (radiobuttons w)) as ->; [|exact Hnat].
    subst w'. clear -Hin Harity. destruct Hin as [l Hl].
    pose proof (function_argcount cb Harity) as Hcode.
    py_guards Hl Hcode.
    destruct (tk_sequence_of name), (bool_decide (name = "change")),
      (bool_decide (name = "press")), (bool_decide (name = "select")),
      (kind w) eqn:Hkind; py_run Hkind; rewrite ?length_fmap; reflexivity. }
  rewrite <- Hlog. unfold fire.
  destruct n as [sequence e| |v|s|i]; simpl in Hmem, Hev |- *.
  - rewrite (option_list_singleton _ _ Hmem). simpl.
    apply _event_registered_invoked;
      [apply Hcb; reflexivity | exact Hacc | exact Hev].
  - rewrite (option_list_singleton _ _ Hmem). simpl.
    apply _event_registered_invoked;
      [apply Hcb; reflexivity | exact Hacc | exact Hev].
  - destruct Hinv as [-> Hsl]. rewrite Hk, Hsl in Hmem |- *.
    rewrite (option_list_singleton _ _ Hmem). simpl.
    destruct (Hslider v eq_refl) as (p & Hp & Hne).
    rewrite (_slider_change_event_filter _ _ (PyInt v) p);
      [|reflexivity | simpl; rewrite Hprev; exact Hp].
    rewrite decide_False by congruence.
    rewrite (_event_registered_invoked _ _ _ cb ev);
      [reflexivity | apply Hcb; reflexivity | exact Hacc | exact Hev].
  - destruct Hinv as [-> Hinp]. rewrite Hk, Hinp in Hmem |- *.
    assert (traces w' = [partial_text_change_event "change"]) as ->.
    { subst w'. rewrite (add_event_listener_change_traces w cb Hinp Hin Hcode).
      rewrite (Hentry s eq_refl). reflexivity. }
    simpl. unfold _text_change_event.
    rewrite (_event_registered_invoked _ _ _ cb ev);
      [reflexivity | apply Hcb; reflexivity | exact Hacc | exact Hev].
  - rewrite (option_list_singleton _ _ Hmem). simpl.
    apply _event_registered_invoked;
      [apply Hcb; reflexivity | exact Hacc | exact Hev].
Qed.

Lemma registered_callback_called_once_witness :
  let first := {| __name__ := "first"; co_argcount := 1 |} in
  let second := {| __name__ := "second"; co_argcount := 1 |} in
  let e := {| tk.x := 3; tk.y := 4; tk.x_root := 103; tk.y_root := 204;
              tk.char := "??"; tk.keysym := "??"; tk.keycode := 0 |} in
  let w := (add_event_listener "mouse_down" first (new Label [])).2 in
  invoked (fire (tk_sequence "<Button-1>" e)
             (add_event_listener "mouse_down" second w).2)
  = [(second : Callable,
      {| event_name := "mouse_down";
         mouse := Some {| m_x := 3; m_y := 4; m_x_root := 103; m_y_root := 204 |};
         key := None |})].
Proof.
  intros first second e w.
  assert (Hsup : supported (kind w) "mouse_down") by (exists None; reflexivity).
  assert (Hin : is_Some (_events w !! "mouse_down"))
    by (exists (Some (function first)); reflexivity).
  refine (registered_callback_called_once w "mouse_down" second
            (tk_sequence "<Button-1>" e) _ Hsup Hin eq_refl eq_refl I _ _ eq_refl).
  - intros v Hv. discriminate Hv.
  - intros s Hs. discriminate Hs.
Defined.

(** ** Traces of an entry accumulate *)




(** ** The change event of sliders and inputs, as the code has it *)






(** ** The slider's previous value *)

Lemma with_value_id w v : _value w = v → with_value v w = w.
Proof. destruct w. simpl. intros ->. reflexivity. Qed.

(** [_event] changes nothing but the log of calls. *)
Lemma _event_only_invoked name tk_event w :
  ∃ log, (_event name tk_event w).2 = with_invoked log w.
Proof.
  unfold _event. py_unfold.
  destruct (GooeyPieEvent_init name tk_event) as [ev|e]; simpl.
  - destruct (_events w !! name) as [[cb|]|]; simpl;
      try destruct (accepts_one_argument cb); simpl; eauto;
      exists (invoked w); destruct w; reflexivity.
  - exists (invoked w). destruct (decide (e = KeyError)); destruct w; reflexivity.
Qed.

(** X5: on a slider whose command is the change dispatcher, once a value
    has been delivered, delivering the same value again changes nothing at
    all: no callback is called and the widget is left as it was, whether
    or not the first delivery dispatched and whether or not it found a
    listener. *)
Theorem slider_redelivery_is_silent w v p :
  kind w = Slider →
  command w = Some (partial_slider_change_event "change") →
  _previous_value w = Some p →
  fire (scale_moved v) (fire (scale_moved v) w) = fire (scale_moved v) w.
Proof.
  intros Hk Hcmd Hprev.
  assert (∃ log,
            fire (scale_moved v) w
            = with_invoked log
                (with_previous_value (Some (PyInt v))
                   (with_value (Some (PyInt v)) w))) as [log Hfirst].
  { unfold fire, handlers. rewrite Hk, Hcmd. simpl.
    rewrite (_slider_change_event_filter _ _ (PyInt v) p)
      by (try reflexivity; exact Hprev).
    destruct (decide (PyInt v = p)) as [<-|Hne].
    - exists (invoked w). simpl. destruct w. simpl in *. subst. reflexivity.
    - destruct (_event_only_invoked "change" None
                  (with_previous_value (Some (PyInt v))
                     (with_value (Some (PyInt v)) w))) as [log ->].
      exists log. reflexivity. }
  rewrite Hfirst. unfold fire, handlers. simpl. rewrite Hk, Hcmd. simpl.
  rewrite (_slider_change_event_filter _ _ (PyInt v) (PyInt v)) by reflexivity.
  rewrite decide_True by reflexivity. reflexivity.
Qed.

Lemma slider_redelivery_is_silent_witness :
  let cb : Callable := function {| __name__ := "on_change"; co_argcount := 1 |} in
  let w := (add_event_listener "change" cb (new Slider [])).2 in
  fire (scale_moved 7) (fire (scale_moved 7) w) = fire (scale_moved 7) w
  ∧ invoked (fire (scale_moved 7) w) = [(cb, change_event)].
Proof.
  intros cb w. split; [|reflexivity].
  exact (slider_redelivery_is_silent w 7 (PyInt 0) eq_refl eq_refl eq_refl).
Defined.

(** ** Registration undone by removal *)

Lemma widget_eq w w' :
  kind w = kind w' → _events w = _events w' → _value w = _value w' →
  _previous_value w = _previous_value w' → bindings w = bindings w' →
  command w = command w' → traces w = traces w' →
  radiobuttons w = radiobuttons w' → invoked w = invoked w' → w = w'.
Proof.
  destruct w, w'. simpl. intros. subst. reflexivity.
Qed.

(** On a class with a command, registering the class's own event touches
    only the table and the command. *)
Lemma add_event_listener_command_only w name (cb : Callable) :
  own_event (kind w) = Some name →
  has_command_option (kind w) = true →
  is_Some (_events w !! name) →
  code_argcount cb = Some 1%nat →
  bindings (add_event_listener name cb w).2 = bindings w
  ∧ traces (add_event_listener name cb w).2 = traces w
  ∧ radiobuttons (add_event_listener name cb w).2 = radiobuttons w.
Proof.
  intros Hown Hopt [l Hl] Hcode.
  py_guards Hl Hcode.
  destruct (kind w) eqn:Hkind; simpl in Hown, Hopt; try discriminate;
    injection Hown as <-; py_run Hkind; repeat split.
Qed.

(** X6: for a mouse, keyboard or focus event, and for "press" or "change"
    on a class whose toolkit widget has a command (buttons, slider,
    checkbox, spinbox), registering a listener and removing it again gives
    back exactly the widget there was before, provided the name had no
    listener and the hook (the tk sequence, or the command) was free. *)
Theorem add_then_remove_restores w name cb :
  supported (kind w) name →
  _events w !! name = Some None →
  co_argcount cb = 1%nat →
  (∀ sequence, tk_sequence_of name = Some sequence → bindings w !! sequence = None) →
  (tk_sequence_of name = None →
   has_command_option (kind w) = true ∧ command w = None) →
  (remove_event_listener name (add_event_listener name cb w).2) = (Returned tt, w).
Proof.
  intros Hsup Hnone Harity Hfree Hcmd.
  pose proof (function_argcount cb Harity) as Hcode.
  assert (Hin : is_Some (_events w !! name)) by eauto.
  assert (Hev : <[name := None]> (<[name := Some (function cb)]> (_events w))
                = _events w).
  { rewrite insert_insert_eq. apply insert_id, Hnone. }
  apply supported_iff in Hsup as [Hown|[sequence Hseq]].
  - assert (tk_sequence_of name = None) as Hnoseq.
    { destruct (kind w); simpl in Hown; try discriminate;
        injection Hown as <-; reflexivity. }
    destruct (Hcmd Hnoseq) as [Hopt Hc].
    assert (name ∈ ["change"; "press"]) as Hcp.
    { apply command_names_iff.
      destruct (kind w); simpl in Hown, Hopt; try discriminate;
        injection Hown as <-; tauto. }
    rewrite (remove_event_listener_command_name _ _ Hcp).
    destruct (add_event_listener_same_data name cb w) as (Hk & Hval & Hprev & Hlog).
    rewrite Hk, Hopt. f_equal.
    destruct (add_event_listener_registers w name cb
                ltac:(apply supported_iff; left; exact Hown) Hin Hcode)
      as (_ & Hevents & _).
    destruct (add_event_listener_command_only w name cb Hown Hopt Hin Hcode)
      as (Hb & Ht & Hr).
    apply widget_eq; simpl; try assumption.
    + rewrite Hevents. exact Hev.
    + symmetry. exact Hc.
  - rewrite (add_event_listener_table_name _ _ _ _ Hseq Hin Hcode). simpl.
    rewrite (remove_event_listener_table_name _ _ _ Hseq). f_equal.
    apply widget_eq; simpl; try reflexivity; [exact Hev|].
    rewrite delete_insert_eq. apply delete_id, Hfree, Hseq.
Qed.

Lemma add_then_remove_restores_witness :
  let cb := {| __name__ := "on_change"; co_argcount := 1 |} in
  remove_event_listener "change"
    (add_event_listener "change" cb (new Checkbox [])).2
  = (Returned tt, new Checkbox [])
  ∧ remove_event_listener "key_press"
      (add_event_listener "key_press" cb (new Listbox [])).2
    = (Returned tt, new Listbox []).
Proof.
  intros cb. split.
  - apply add_then_remove_restores.
    + exists None. reflexivity.
    + reflexivity.
    + reflexivity.
    + intros sequence H. discriminate H.
    + intros _. split; reflexivity.
  - apply add_then_remove_restores.
    + exists None. reflexivity.
    + reflexivity.
    + reflexivity.
    + intros sequence [= <-]. reflexivity.
    + intros H. discriminate H.
Defined.

(** ** What a removal detaches besides the listener *)

(** X7: removing the listener of a mouse, keyboard or focus event unbinds
    its tk sequence altogether, whatever was bound to it and whether or
    not a listener was registered: a later event of that sequence runs no
    handler, and the other sequences keep their bindings.  (A Hyperlink
    opens its link from a binding of <Button-1>; removing "mouse_down"
    drops it.) *)
Theorem removal_unbinds_whole_sequence w name sequence e :
  tk_sequence_of name = Some sequence →
  handlers (tk_sequence sequence e) (remove_event_listener name w).2 = []
  ∧ fire (tk_sequence sequence e) (remove_event_listener name w).2
    = (remove_event_listener name w).2
  ∧ ∀ other, other ≠ sequence →
      bindings (remove_event_listener name w).2 !! other = bindings w !! other.
Proof.
  intros Hseq. rewrite (remove_event_listener_table_name _ _ _ Hseq).
  unfold fire, handlers. simpl. rewrite lookup_delete_eq. simpl.
  split; [reflexivity|]. split; [reflexivity|].
  intros other Hne. apply lookup_delete_ne. congruence.
Qed.

Lemma removal_unbinds_whole_sequence_witness :
  let e := {| tk.x := 1; tk.y := 1; tk.x_root := 1; tk.y_root := 1;
              tk.char := "??"; tk.keysym := "??"; tk.keycode := 0 |} in
  handlers (tk_sequence "<Button-1>" e) (new Hyperlink []) = [hyperlink_open_link]
  ∧ handlers (tk_sequence "<Button-1>" e)
      (remove_event_listener "mouse_down" (new Hyperlink [])).2 = [].
Proof.
  intros e. split; [reflexivity|].
  apply (removal_unbinds_whole_sequence (new Hyperlink []) "mouse_down"
           "<Button-1>" e eq_refl).
Defined.

(** X8: "press" and "change" share the toolkit's command.  On a class
    whose widget has one, removing either name returns normally and clears
    the command, so the listener still stored under any other name is no
    longer reached by a command trigger: pressing the button or moving the
    slider calls nothing, although the table still holds the callback. *)
Theorem removal_clears_shared_command w name other cb v :
  has_command_option (kind w) = true →
  name ∈ ["change"; "press"] →
  other ≠ name →
  _events w !! other = Some (Some cb) →
  (remove_event_listener name w).1 = Returned tt
  ∧ _events (remove_event_listener name w).2 !! other = Some (Some cb)
  ∧ fire command_invoked (remove_event_listener name w).2
    = (remove_event_listener name w).2
  ∧ invoked (fire (scale_moved v) (remove_event_listener name w).2) = invoked w.
Proof.
  intros Hopt Hname Hne Hcb.
  rewrite (remove_event_listener_command_name _ _ Hname), Hopt. simpl.
  split; [reflexivity|]. split.
  { rewrite lookup_insert_ne by congruence. exact Hcb. }
  split; [reflexivity|].
  unfold fire, handlers. simpl. destruct (is_Slider (kind w)); reflexivity.
Qed.

Lemma removal_clears_shared_command_witness :
  let cb : Callable := function {| __name__ := "on_press"; co_argcount := 1 |} in
  let w := (add_event_listener "press" cb (new Button [])).2 in
  invoked (fire command_invoked w) = [(cb, {| event_name := "press";
                                              mouse := None; key := None |})]
  ∧ (remove_event_listener "change" w).1 = Returned tt
  ∧ _events (remove_event_listener "change" w).2 !! "press" = Some (Some cb)
  ∧ fire command_invoked (remove_event_listener "change" w).2
    = (remove_event_listener "change" w).2.
Proof.
  intros cb w. split; [reflexivity|].
  assert (Hin : "change" ∈ ["change"; "press"]) by (apply list_elem_of_here).
  assert (Hne : "press" ≠ "change") by discriminate.
  destruct (removal_clears_shared_command w "change" "press" cb 0
              eq_refl Hin Hne eq_refl) as (H1 & H2 & H3 & _).
  split; [exact H1|]. split; [exact H2 | exact H3].
Defined.

(** X9: an entry and a radio group support "change", but their toolkit
    widgets have no command option: remove_event_listener("change") on
    them clears the table entry and then raises TclError, leaving the
    trace and the radio buttons' commands attached. *)
Theorem removal_of_change_without_command w :
  is_Input (kind w) || is_RadiogroupBase (kind w) = true →
  supported (kind w) "change"
  ∧ remove_event_listener "change" w
    = (Raised TclError, with_events <["change" := None]> w)
  ∧ traces (remove_event_listener "change" w).2 = traces w
  ∧ radiobuttons (remove_event_listener "change" w).2 = radiobuttons w.
Proof.
  intros Hk.
  assert (Hin : "change" ∈ ["change"; "press"]) by (apply list_elem_of_here).
  rewrite (remove_event_listener_command_name _ _ Hin).
  split.
  { apply supported_iff. left.
    destruct (kind w); simpl in Hk; try discriminate; reflexivity. }
  destruct (kind w); simpl in Hk; try discriminate; repeat split.
Qed.

Lemma removal_of_change_without_command_witness :
  let cb : Callable := function {| __name__ := "on_change"; co_argcount := 1 |} in
  let w := (add_event_listener "change" cb (new Radiogroup ["a"; "b"])).2 in
  radiobuttons w = [Some (partial_event "change"); Some (partial_event "change")]
  ∧ remove_event_listener "change" w
    = (Raised TclError, with_events <["change" := None]> w)
  ∧ radiobuttons (remove_event_listener "change" w).2 = radiobuttons w.
Proof.
  intros cb w. split; [reflexivity|].
  destruct (removal_of_change_without_command w eq_refl) as (_ & H1 & _ & H2).
  split; [exact H1 | exact H2].
Defined.

(** * Further properties of the property facade *)

(** ** Secret *)

(** X10: [Secret.toggle] unmasks a masked entry and masks an unmasked
    one; after the [secret] setter of Input it is the same as setting
    [secret] to the opposite value, so toggling twice gives back the
    entry the setter made; a new Secret is masked. *)
Theorem toggle_flips_masking (value : bool) (e : InputFacade.Entry) :
  SecretFacade.toggle (InputFacade.secret_setter value e)
  = InputFacade.secret_setter (negb value) e
  ∧ SecretFacade.toggle (SecretFacade.toggle (InputFacade.secret_setter value e))
    = InputFacade.secret_setter value e
  ∧ SecretFacade.toggle SecretFacade.__init__ = InputFacade.secret_setter false e
  ∧ (InputFacade.show (SecretFacade.toggle e) = ""
     ↔ InputFacade.show e ≠ "").
Proof.
  unfold SecretFacade.toggle, SecretFacade.mask, SecretFacade.unmask.
  repeat split.
  - destruct value; reflexivity.
  - destruct value; reflexivity.
  - destruct (decide (InputFacade.show e ≠ "")) as [H|H]; [intros _; exact H|].
    simpl. discriminate.
  - intros H. rewrite decide_True by assumption. reflexivity.
Qed.

(** ** Textbox *)

Lemma but_last_app_newline s :
  TextboxFacade.but_last (s ++ TextboxFacade.newline) = s.
Proof.
  induction s as [|c s IH]; [reflexivity|].
  simpl. rewrite IH. destruct s; reflexivity.
Qed.

Lemma text_content t : TextboxFacade.text t = TextboxFacade.content t.
Proof. apply but_last_app_newline. Qed.

(** X11: the text of a Textbox reads back what was set, without the
    newline the toolkit appends; [append] adds at the end, so two appends
    are one append of the concatenation; [clear] leaves the empty text;
    none of them touches the width or the height. *)
Theorem textbox_text_round_trip s a b (t : TextboxFacade.Text) :
  TextboxFacade.text (TextboxFacade.text_setter s t) = s
  ∧ TextboxFacade.text (TextboxFacade.append a t) = TextboxFacade.text t ++ a
  ∧ TextboxFacade.append b (TextboxFacade.append a t)
    = TextboxFacade.append (a ++ b) t
  ∧ TextboxFacade.text (TextboxFacade.clear t) = ""
  ∧ TextboxFacade.width (TextboxFacade.append a t) = TextboxFacade.width t
  ∧ TextboxFacade.height (TextboxFacade.append a t) = TextboxFacade.height t.
Proof.
  assert (Hright : ∀ u : string, u ++ "" = u).
  { induction u as [|c u IH]; [reflexivity|].
    change (String c (u ++ "") = String c u). rewrite IH. reflexivity. }
  assert (Hassoc : ∀ u v x : string, (u ++ v) ++ x = u ++ v ++ x).
  { induction u as [|c u IH]; intros v x; [reflexivity|].
    change (String c ((u ++ v) ++ x) = String c (u ++ v ++ x)).
    rewrite IH. reflexivity. }
  assert (Hset : ∀ u t', TextboxFacade.text (TextboxFacade.text_setter u t') = u).
  { intros u t'. rewrite text_content. simpl. apply Hright. }
  repeat split.
  - apply Hset.
  - unfold TextboxFacade.append. apply Hset.
  - unfold TextboxFacade.append. rewrite Hset, Hassoc. reflexivity.
Qed.

(** X12: the getter of [height] of a Textbox returns the width: reading
    the height after setting it gives the width the box has, and reading
    it after setting the width gives the new width. *)
Theorem textbox_height_reads_width rows cols (t : TextboxFacade.Text) :
  TextboxFacade.height_getter (TextboxFacade.height_setter rows t)
  = TextboxFacade.width_getter t
  ∧ TextboxFacade.height_getter (TextboxFacade.width_setter cols t) = cols
  ∧ TextboxFacade.height (TextboxFacade.height_setter rows t) = rows
  ∧ TextboxFacade.width_getter (TextboxFacade.width_setter cols t) = cols.
Proof. repeat split. Qed.

(** ** Dropdown.selected_index *)

Lemma index_NoDup t value i :
  NoDup t → t !! i = Some value → index t value = Returned i.
Proof.
  intros Hnd. revert i. induction Hnd as [|item rest Hnotin _ IH]; intros i.
  - rewrite lookup_nil. discriminate.
  - destruct i as [|i]; simpl.
    + intros [= ->]. rewrite decide_True by reflexivity. reflexivity.
    + intros Hi. rewrite decide_False.
      * rewrite (IH i Hi). reflexivity.
      * intros ->. apply Hnotin. apply list_elem_of_lookup. eauto.
Qed.

(** X13: the setter of [selected_index] of a Dropdown raises IndexError
    and changes nothing for a negative index or one past the last choice
    (a negative index does not count from the end); for a position of the
    list it shows the choice there, which [selected] then returns, and
    when the choices are distinct [selected_index] reads the index back.
    The two getters agree: one is None exactly when the other is. *)
Theorem dropdown_selected_index (position : Z) (d : DropdownFacade.Combobox) :
  ((position < 0 ∨ Z.of_nat (length (DropdownFacade.values d)) ≤ position)%Z →
     DropdownIndex.selected_index_setter position d = (Raised IndexError, d))
  ∧ (∀ value,
       (0 ≤ position)%Z →
       DropdownFacade.values d !! Z.to_nat position = Some value →
       (DropdownIndex.selected_index_setter position d).1 = Returned tt
       ∧ DropdownFacade.selected (DropdownIndex.selected_index_setter position d).2
         = Some value
       ∧ (NoDup (DropdownFacade.values d) →
          DropdownIndex.selected_index
            (DropdownIndex.selected_index_setter position d).2 = Some position))
  ∧ (DropdownIndex.selected_index d = None ↔ DropdownFacade.selected d = None).
Proof.
  unfold DropdownIndex.selected_index_setter, DropdownIndex.current_set.
  split; [|split].
  - intros [Hneg|Hbig].
    + rewrite decide_False by lia. reflexivity.
    + destruct (decide (0 ≤ position)%Z); [|reflexivity].
      rewrite lookup_ge_None_2 by lia. reflexivity.
  - intros value Hpos Hval. rewrite decide_True by assumption. rewrite Hval.
    simpl. split; [reflexivity|].
    assert (Hin : value ∈ DropdownFacade.values d)
      by (apply list_elem_of_lookup; eauto).
    apply index_elem_of in Hin as [i Hi].
    unfold DropdownFacade.selected, DropdownIndex.selected_index,
      DropdownFacade.current. simpl.
    split.
    + rewrite Hi. rewrite decide_False by lia. rewrite Nat2Z.id.
      apply index_Returned, Hi.
    + intros Hnd. rewrite (index_NoDup _ _ _ Hnd Hval).
      rewrite decide_False by lia. rewrite Z2Nat.id by assumption. reflexivity.
  - unfold DropdownFacade.selected, DropdownIndex.selected_index,
      DropdownFacade.current.
    destruct (index (DropdownFacade.values d) (DropdownFacade.text d))
      as [i|e] eqn:Hi.
    + rewrite !decide_False by lia. rewrite Nat2Z.id.
      rewrite (index_Returned _ _ _ Hi). split; discriminate.
    + rewrite !decide_True by reflexivity. tauto.
Qed.

Lemma dropdown_selected_index_witness :
  let d := {| DropdownFacade.values := ["red"; "green"; "blue"];
              DropdownFacade.text := "" |} in
  DropdownIndex.selected_index_setter (-1) d = (Raised IndexError, d)
  ∧ DropdownIndex.selected_index_setter 3 d = (Raised IndexError, d)
  ∧ DropdownFacade.selected (DropdownIndex.selected_index_setter 2 d).2
    = Some "blue"
  ∧ DropdownIndex.selected_index (DropdownIndex.selected_index_setter 2 d).2
    = Some 2.
Proof.
  intros d.
  split; [apply (proj1 (dropdown_selected_index (-1) d)); left; lia|].
  split; [apply (proj1 (dropdown_selected_index 3 d)); right; simpl; lia|].
  destruct (proj1 (proj2 (dropdown_selected_index 2 d)) "blue")
    as (_ & Hsel & Hidx); [lia | reflexivity |].
  split; [exact Hsel|]. apply Hidx.
  apply (bool_decide_unpack _). vm_compute. exact I.
Defined.

(** ** Listbox: adding lines and selecting *)

Lemma getitems_add_option item (lb : ListboxFacade.Lines) select :
  Forall (λ i, (i < length (ListboxFacade.items lb))%nat) select →
  ListboxFacade.getitems (ListboxEdit.add_option item lb) select
  = ListboxFacade.getitems lb select.
Proof.
  induction 1 as [|i select Hi _ IH]; simpl; [reflexivity|].
  unfold ListboxFacade.getitem. simpl.
  rewrite lookup_app_l by assumption. rewrite IH. reflexivity.
Qed.

(** X14: [add_option] appends the line at the end and leaves the
    selection as it is: with the selected indices within the lines, both
    [selected_index] and [selected] return after it what they returned
    before, and the new line is the last one. *)
Theorem add_option_keeps_selection item (lb : ListboxFacade.Lines) :
  Forall (λ i, (i < length (ListboxFacade.items lb))%nat)
         (ListboxFacade.curselection lb) →
  ListboxFacade.selected_index (ListboxEdit.add_option item lb)
  = ListboxFacade.selected_index lb
  ∧ ListboxFacade.selected (ListboxEdit.add_option item lb)
    = ListboxFacade.selected lb
  ∧ ListboxFacade.items (ListboxEdit.add_option item lb)
      !! length (ListboxFacade.items lb) = Some item.
Proof.
  intros Hvalid. split; [reflexivity|]. split.
  - unfold ListboxFacade.selected.
    pose proof (getitems_add_option item lb _ Hvalid) as Hall.
    change (ListboxFacade.curselection (ListboxEdit.add_option item lb))
      with (ListboxFacade.curselection lb).
    destruct (ListboxFacade.curselection lb) as [|i [|j rest]]; [reflexivity| |].
    + unfold ListboxFacade.getitem. simpl.
      rewrite lookup_app_l; [reflexivity|].
      apply Forall_inv in Hvalid. exact Hvalid.
    + rewrite Hall. reflexivity.
  - simpl. rewrite lookup_app_r by lia. rewrite Nat.sub_diag. reflexivity.
Qed.

Lemma add_option_keeps_selection_witness :
  let lb := {| ListboxFacade.items := ["red"; "green"];
               ListboxFacade.curselection := [1%nat] |} in
  ListboxFacade.selected (ListboxEdit.add_option "blue" lb)
  = Returned (ListboxFacade.Single "green").
Proof.
  intros lb.
  assert (Hvalid : Forall (λ i, (i < length (ListboxFacade.items lb))%nat)
                     (ListboxFacade.curselection lb)).
  { repeat constructor. }
  rewrite (proj1 (proj2 (add_option_keeps_selection "blue" lb Hvalid))).
  reflexivity.
Defined.

(** X15: the setter of [selected_index] of a Listbox adds the line to
    the selection and deselects nothing.  With nothing selected, the
    index and its line are what the getters return next; with another
    line selected, [selected_index] returns both indices and [selected]
    both lines, as collections in ascending order of the indices; an
    index past the last line changes nothing. *)
Theorem listbox_selected_index_setter_adds i (lb : ListboxFacade.Lines) :
  (∀ line,
     ListboxFacade.curselection lb = [] →
     ListboxFacade.items lb !! i = Some line →
     ListboxFacade.selected_index (ListboxEdit.selected_index_setter i lb)
     = ListboxFacade.Single i
     ∧ ListboxFacade.selected (ListboxEdit.selected_index_setter i lb)
       = Returned (ListboxFacade.Single line))
  ∧ (∀ j,
       ListboxFacade.curselection lb = [j] →
       i ≠ j →
       (i < length (ListboxFacade.items lb))%nat →
       ListboxFacade.selected_index (ListboxEdit.selected_index_setter i lb)
       = ListboxFacade.Several [i `min` j; i `max` j]%nat)
  ∧ (∀ j line other,
       ListboxFacade.curselection lb = [j] →
       i ≠ j →
       ListboxFacade.items lb !! i = Some line →
       ListboxFacade.items lb !! j = Some other →
       ListboxFacade.selected (ListboxEdit.selected_index_setter i lb)
       = Returned (ListboxFacade.Several
                     (if decide (i < j)%nat then [line; other]
                      else [other; line])))
  ∧ ((length (ListboxFacade.items lb) ≤ i)%nat →
     ListboxEdit.selected_index_setter i lb = lb).
Proof.
  unfold ListboxEdit.selected_index_setter.
  split; [|split; [|split]].
  - intros line Hsel Hline.
    rewrite decide_True by (apply lookup_lt_Some in Hline; exact Hline).
    unfold ListboxFacade.selected_index, ListboxFacade.selected. simpl.
    rewrite Hsel. simpl. unfold ListboxFacade.getitem. simpl. rewrite Hline.
    split; reflexivity.
  - intros j Hsel Hne Hlt. rewrite decide_True by assumption.
    unfold ListboxFacade.selected_index. simpl. rewrite Hsel. simpl.
    rewrite decide_False by assumption.
    destruct (decide (i < j)%nat).
    + rewrite Nat.min_l, Nat.max_r by lia. reflexivity.
    + rewrite Nat.min_r, Nat.max_l by lia. reflexivity.
  - intros j line other Hsel Hne Hline Hother.
    rewrite decide_True by (apply lookup_lt_Some in Hline; exact Hline).
    unfold ListboxFacade.selected. simpl. rewrite Hsel. simpl.
    rewrite decide_False by assumption.
    destruct (decide (i < j)%nat); simpl; unfold ListboxFacade.getitem; simpl;
      rewrite Hline, Hother; reflexivity.
  - intros Hge. rewrite decide_False by lia. reflexivity.
Qed.

Lemma listbox_selected_index_setter_adds_witness :
  let lb := {| ListboxFacade.items := ["red"; "green"; "blue"];
               ListboxFacade.curselection := [] |} in
  ListboxFacade.selected (ListboxEdit.selected_index_setter 2 lb)
  = Returned (ListboxFacade.Single "blue")
  ∧ ListboxFacade.selected_index
      (ListboxEdit.selected_index_setter 0 (ListboxEdit.selected_index_setter 2 lb))
    = ListboxFacade.Several [0; 2]%nat
  ∧ ListboxFacade.selected
      (ListboxEdit.selected_index_setter 0 (ListboxEdit.selected_index_setter 2 lb))
    = Returned (ListboxFacade.Several ["red"; "blue"])
  ∧ ListboxEdit.selected_index_setter 3 lb = lb.
Proof.
  intros lb.
  split.
  { apply (proj1 (listbox_selected_index_setter_adds 2 lb) "blue"); reflexivity. }
  split.
  { apply (proj1 (proj2 (listbox_selected_index_setter_adds 0
                           (ListboxEdit.selected_index_setter 2 lb))) 2%nat).
    - reflexivity.
    - lia.
    - simpl. lia. }
  split.
  { apply (proj1 (proj2 (proj2 (listbox_selected_index_setter_adds 0
                           (ListboxEdit.selected_index_setter 2 lb))))
             2%nat "red" "blue").
    - reflexivity.
    - lia.
    - reflexivity.
    - reflexivity. }
  apply (proj2 (proj2 (proj2 (listbox_selected_index_setter_adds 3 lb)))).
  simpl. lia.
Defined.

(** ** StyleLabel.set_font *)

Section SetFont.

Import StyleLabelFacade StyleLabelFont.

Variable actual : FontOption → FontDict.

Lemma set_option_returns option s :
  (set_option actual option s).1 = Returned tt ↔ known_option option.
Proof.
  unfold set_option, known_option.
  rewrite !elem_of_cons, elem_of_nil.
  destruct (decide (option = "bold")) as [->|?];
    [split; [intros _; auto 10 | intros _; reflexivity]|].
  destruct (decide (option = "italic")) as [->|?];
    [split; [intros _; auto 10 | intros _; reflexivity]|].
  destruct (decide (option = "underline")) as [->|?];
    [split; [intros _; auto 10 | intros _; reflexivity]|].
  destruct (decide (option = "strikethrough")) as [->|?];
    [split; [intros _; auto 10 | intros _; reflexivity]|].
  simpl. split; [discriminate | tauto].
Qed.

Lemma set_option_raises option s :
  ¬ known_option option → set_option actual option s = (Raised ValueError, s).
Proof.
  unfold set_option, known_option. rewrite !elem_of_cons, elem_of_nil.
  intros Hno. repeat case_decide; first [reflexivity | tauto].
Qed.

Lemma set_options_returns options s :
  (set_options actual options s).1 = Returned tt ↔ Forall known_option options.
Proof.
  revert s. induction options as [|option rest IH]; intros s; simpl.
  - split; [constructor | reflexivity].
  - pose proof (set_option_returns option s) as Hone.
    destruct (set_option actual option s) as [[[]|e] s'] eqn:Hset; simpl in Hone.
    + rewrite IH. split.
      * intros Hrest. constructor; [apply Hone; reflexivity | exact Hrest].
      * intros Hall. apply Forall_inv_tail in Hall. exact Hall.
    + simpl. split; [discriminate|].
      intros Hall. apply Forall_inv in Hall. apply Hone in Hall. discriminate.
Qed.

End SetFont.

(** X16: [set_font] with an integer size returns exactly when every
    piece of the options string between single spaces is one of "bold",
    "italic", "underline" and "strikethrough".  The empty string is one
    empty piece, so the call with the default options raises ValueError,
    after the font name and size have been set. *)
Theorem set_font_needs_known_options
  (actual : StyleLabelFacade.FontOption → StyleLabelFacade.FontDict)
  (default_font : StyleLabelFacade.FontDict) (int : string → Outcome Z)
  (font : string) (z : Z) (options : string) (s : StyleLabelFacade.StyleLabel) :
  ((StyleLabelFont.set_font actual default_font int font (PyInt z) options s).1
   = Returned tt
   ↔ Forall (λ option,
               option ∈ ["bold"; "italic"; "underline"; "strikethrough"])
            (StyleLabelFont.split options))
  ∧ StyleLabelFont.set_font actual default_font int font (PyInt z) "" s
    = (Raised ValueError,
       StyleLabelFacade._set_font_property actual "size" (PyInt z)
         (StyleLabelFont.font_name_setter actual default_font font s)).
Proof.
  unfold StyleLabelFont.set_font, StyleLabelFont.font_size_setter.
  rewrite decide_False by discriminate. split.
  - exact (set_options_returns actual _ _).
  - reflexivity.
Qed.

(** The pieces joined by single spaces are the string again. *)
Lemma split_concat s : String.concat " " (StyleLabelFont.split s) = s.
Proof.
  induction s as [|c s IH]; [reflexivity|].
  simpl. destruct (decide (c = " "%char)) as [->|Hc].
  - destruct (StyleLabelFont.split s) as [|piece pieces] eqn:Hs.
    + simpl in IH. subst s. discriminate Hs.
    + change (String.concat " " ("" :: piece :: pieces))
        with (String " " (String.concat " " (piece :: pieces))).
      rewrite IH. reflexivity.
  - destruct (StyleLabelFont.split s) as [|piece pieces] eqn:Hs.
    + subst s. discriminate Hs.
    + rewrite <- IH. destruct pieces; reflexivity.
Qed.

(** ** Image.image *)

(** X17: without Pillow the setter of [image] raises ValueError, and
    changes nothing, exactly for a path whose last three characters are
    not "gif"; a path that passes the check, or any path with Pillow, is
    stored before the picture is loaded: when the load succeeds the
    getter returns the path and the picture shown is that file, and when
    the load raises, the exception propagates and the getter returns the
    new path although the picture shown is still the old one. *)
Theorem image_setter_checks_extension (PILLOW : bool)
  (load : string → Outcome unit) (image : string) (p : ImageFacade.Picture) :
  (PILLOW = false → ImageFacade.last_three image ≠ "gif" →
     ImageFacade.image_setter PILLOW load image p = (Raised ValueError, p))
  ∧ (PILLOW = true ∨ ImageFacade.last_three image = "gif" →
     load image = Returned tt →
     (ImageFacade.image_setter PILLOW load image p).1 = Returned tt
     ∧ ImageFacade.image (ImageFacade.image_setter PILLOW load image p).2
       = Returned image
     ∧ ImageFacade.shown (ImageFacade.image_setter PILLOW load image p).2
       = Some image)
  ∧ (PILLOW = true ∨ ImageFacade.last_three image = "gif" →
     ∀ e, load image = Raised e →
     (ImageFacade.image_setter PILLOW load image p).1 = Raised e
     ∧ ImageFacade.image (ImageFacade.image_setter PILLOW load image p).2
       = Returned image
     ∧ ImageFacade.shown (ImageFacade.image_setter PILLOW load image p).2
       = ImageFacade.shown p).
Proof.
  unfold ImageFacade.image_setter.
  split; [|split].
  - intros -> Hext. simpl. rewrite bool_decide_eq_true_2 by assumption.
    reflexivity.
  - intros Hok Hload.
    assert (negb PILLOW && bool_decide (ImageFacade.last_three image ≠ "gif")
            = false) as ->.
    { destruct Hok as [->|Hgif]; [reflexivity|].
      rewrite bool_decide_eq_false_2 by tauto. apply andb_false_r. }
    rewrite Hload. repeat split.
  - intros Hok e Hload.
    assert (negb PILLOW && bool_decide (ImageFacade.last_three image ≠ "gif")
            = false) as ->.
    { destruct Hok as [->|Hgif]; [reflexivity|].
      rewrite bool_decide_eq_false_2 by tauto. apply andb_false_r. }
    rewrite Hload. repeat split.
Qed.

Lemma image_setter_checks_extension_witness :
  let load := λ path : string,
    if decide (path = "logo.gif") then Returned tt else Raised TclError in
  let p := {| ImageFacade._image := Some "logo.gif";
              ImageFacade.shown := Some "logo.gif" |} in
  ImageFacade.image_setter false load "photo.GIF" p = (Raised ValueError, p)
  ∧ ImageFacade.image (ImageFacade.image_setter false load "logo.gif" p).2
    = Returned "logo.gif"
  ∧ ImageFacade.image (ImageFacade.image_setter false load "gone.gif" p).2
    = Returned "gone.gif"
  ∧ ImageFacade.shown (ImageFacade.image_setter false load "gone.gif" p).2
    = Some "logo.gif".
Proof.
  intros load p.
  split.
  { apply (proj1 (image_setter_checks_extension false load "photo.GIF" p));
      [reflexivity | discriminate]. }
  split.
  { apply (proj1 (proj2 (image_setter_checks_extension false load "logo.gif" p)));
      [right; reflexivity | reflexivity]. }
  destruct (proj2 (proj2 (image_setter_checks_extension false load "gone.gif" p))
              (or_intror eq_refl) TclError eq_refl) as (_ & Hget & Hshown).
  split; [exact Hget | exact Hshown].
Defined.

(** * Construction and dispatch *)

(** Registering "press" on a widget with a command stores the callback
    and sets the command. *)
Lemma press_registered w (cb : Callable) :
  has_command_option (kind w) = true →
  is_Some (_events w !! "press") →
  code_argcount cb = Some 1%nat →
  add_event_listener "press" cb w
  = (Returned tt,
     with_command (Some (partial_event "press"))
       (with_events <["press" := Some cb]> w)).
Proof.
  intros Hopt [l Hl] Hcode. py_guards Hl Hcode.
  py_run Hopt. reflexivity.
Qed.

(** X18: Button.__init__ passes a truthy callback to add_event_listener
    under "press" and therefore applies its check of the code object.
    With a callable whose __code__.co_argcount is 1 and which binds one
    positional argument (a plain function of one parameter, say) it
    returns a button on which a press calls that callable exactly once,
    with a "press" event carrying no mouse or key data.  With a callable
    whose code object counts any other number the constructor itself
    raises GooeyPieError, and with one that has no __code__ it raises
    AttributeError; the button is left without a listener either way.
    Without a callback a press calls nothing.  The width configured is
    the minimum size or the number of code points of the text plus two,
    whichever is larger. *)
Theorem Button_constructor_registers_press (cb : Callable) min_size text :
  (code_argcount cb = Some 1%nat → accepts_one_argument cb = true →
     (Button___init__ (Some cb)).1 = Returned tt
     ∧ invoked (fire command_invoked (Button___init__ (Some cb)).2)
       = [(cb, {| event_name := "press"; mouse := None; key := None |})])
  ∧ (∀ n, code_argcount cb = Some n → n ≠ 1%nat →
     Button___init__ (Some cb) = (Raised GooeyPieError, new Button []))
  ∧ (code_argcount cb = None →
     Button___init__ (Some cb) = (Raised AttributeError, new Button []))
  ∧ invoked (fire command_invoked (Button___init__ None).2) = []
  ∧ (min_size ≤ Button_size min_size text)%Z
  ∧ (Z.of_nat (len text) + 2 ≤ Button_size min_size text)%Z
  ∧ (Button_size min_size text = min_size
     ∨ Button_size min_size text = Z.of_nat (len text) + 2)%Z.
Proof.
  unfold Button___init__, Button_size.
  assert (Hin : _events (new Button []) !! "press" = Some None) by reflexivity.
  split; [|split; [|split; [|split; [reflexivity | lia]]]].
  - intros Hcode Hacc.
    rewrite (press_registered (new Button []) cb eq_refl (ex_intro _ _ Hin) Hcode).
    split; [reflexivity|].
    unfold fire, handlers. simpl call_all.
    erewrite _event_registered_invoked; [reflexivity | | exact Hacc | reflexivity].
    simpl. apply lookup_insert_eq.
  - intros n Hcode Hn.
    rewrite (add_event_listener_rejects (new Button []) "press" cb
               (ex_intro _ _ Hin)) by (rewrite Hcode; congruence).
    rewrite Hcode. reflexivity.
  - intros Hcode.
    rewrite (add_event_listener_rejects (new Button []) "press" cb
               (ex_intro _ _ Hin)) by (rewrite Hcode; congruence).
    rewrite Hcode. reflexivity.
Qed.

Lemma Button_constructor_registers_press_witness :
  let good : Callable := function {| __name__ := "on_press"; co_argcount := 1 |} in
  let bad : Callable := function {| __name__ := "on_press"; co_argcount := 0 |} in
  let partial := other_callable "partial" None true in
  invoked (fire command_invoked (Button___init__ (Some good)).2)
  = [(good, {| event_name := "press"; mouse := None; key := None |})]
  ∧ Button___init__ (Some bad) = (Raised GooeyPieError, new Button [])
  ∧ Button___init__ (Some partial) = (Raised AttributeError, new Button [])
  ∧ Button_size 3 "●●" = 4%Z.
Proof.
  intros good bad partial.
  destruct (Button_constructor_registers_press good 3 "●●")
    as (Hgood & _ & _ & _ & _ & _ & _).
  destruct (Button_constructor_registers_press bad 3 "●●")
    as (_ & Hbad & _ & _ & _ & _ & _).
  destruct (Button_constructor_registers_press partial 3 "●●")
    as (_ & _ & Hpartial & _ & _ & _ & _).
  split; [exact (proj2 (Hgood eq_refl eq_refl))|].
  split; [apply (Hbad 0%nat eq_refl); discriminate|].
  split; [exact (Hpartial eq_refl)|].
  vm_compute. reflexivity.
Defined.

(** X19: dispatching a name that is not a key of the table raises
    AttributeError, whatever payload comes with it, calls no callback and
    leaves the widget as it was.  For a name that is a key but has no
    listener the dispatch raises as well and leaves the widget as it was:
    TypeError (calling None) when it comes without payload or with a tk
    event, and AttributeError only when the payload is the value a Scale
    hands over, which has no mouse position to build the event from. *)
Theorem dispatch_of_unknown_name w name tk_event :
  _events w !! name = None →
  _event name tk_event w = (Raised AttributeError, w)
  ∧ ∀ other payload, _events w !! other = Some None →
      _event other payload w
      = (Raised (match payload with
                 | Some (ScaleValue _) => AttributeError
                 | _ => TypeError
                 end), w).
Proof.
  intros Hnone. split.
  - unfold _event. py_unfold.
    destruct (GooeyPieEvent_init name tk_event) as [ev|e] eqn:Hev; simpl.
    + rewrite Hnone. reflexivity.
    + destruct tk_event as [[?|?]|]; simpl in Hev; try discriminate.
      injection Hev as <-. reflexivity.
  - intros other payload Hother. unfold _event. py_unfold.
    destruct payload as [[e|v]|]; simpl; rewrite ?Hother; reflexivity.
Qed.

Lemma dispatch_of_unknown_name_witness :
  _events (new Label []) !! "change" = None
  ∧ _event "change" None (new Label []) = (Raised AttributeError, new Label [])
  ∧ _event "mouse_down" None (new Label []) = (Raised TypeError, new Label [])
  ∧ _event "mouse_down" (Some (ScaleValue 3)) (new Label [])
    = (Raised AttributeError, new Label []).
Proof.
  split; [reflexivity|].
  destruct (dispatch_of_unknown_name (new Label []) "change" None eq_refl)
    as [Hunknown Hkey].
  split; [exact Hunknown|].
  split; [exact (Hkey "mouse_down" None eq_refl)
         | exact (Hkey "mouse_down" (Some (ScaleValue 3)) eq_refl)].
Defined.
